(** * WebEditor: colour model, gradient compiler and pointer state machines

    A shallow embedding of the algorithmic core of the editor:
    - [LeftSidebar]: the colour helpers of [src/app/editor/LeftSidebar.tsx]
      ([clamp], [cmykToRgb], [rgbToHex], [hexToRgb], [rgbToCmyk], [mix]);
    - [CanvasStage]: [applyGradient] with its local helpers [hexToRgb],
      [toRgba] and [mixColor], and the pointer handlers [handleMouseDown],
      [handleMouseMove], [handleMouseUp] and [finalizeCrop] of
      [src/app/editor/components/Stage/CanvasStage.tsx].

    Numbers.  A JavaScript [number] is modelled as an exact rational ([Q]):
    [+], [-], [*] and [/] are the field operations, decimal literals such as
    [0.01] are the rationals they denote, and [NaN] and the infinities are
    outside the model (the only place where the code can produce [NaN] from
    well-typed finite input is [parseInt], which is modelled with it).
    Integer-valued numbers that only flow through bit operations,
    [Math.round] and [toString(16)] are kept in [Z].

    Strings.  A JavaScript string is modelled as a [string] whose characters
    are the code units below 256. *)

From Stdlib Require Import ZArith QArith Qround Qabs Lqa Lia.
From Stdlib Require Import String Ascii List Bool.
From Stdlib Require Import Hexadecimal HexadecimalString.
Import ListNotations.

Local Open Scope Q_scope.

(* ================================================================== *)
(** ** The JavaScript primitives used by the sources                   *)
(* ================================================================== *)

Module JS.

(** [Math.round]: the nearest integer, ties towards +infinity. *)
Definition Math_round (x : Q) : Z := Qfloor (x + (1 # 2)).

(** [Math.max] and [Math.min] on two finite numbers. *)
Definition Math_max (a b : Q) : Q := if Qle_bool a b then b else a.
Definition Math_min (a b : Q) : Q := if Qle_bool a b then a else b.


Definition Math_abs (x : Q) : Q := Qabs x.

(** [x < y] and [x > y] on numbers. *)
Definition ltb (x y : Q) : bool := negb (Qle_bool y x).
Definition gtb (x y : Q) : bool := negb (Qle_bool x y).

(** [x || d] for a number [x]: [0] is falsy. *)
Definition num_or (x d : Q) : Q := if Qeq_bool x 0 then d else x.

(** [o || d] for an optional number: [undefined] and [0] are falsy. *)
Definition opt_num_or (o : option Q) (d : Q) : Q :=
  match o with
  | Some x => num_or x d
  | None => d
  end.

(** [o != null ? o : d]. *)
Definition opt_or {A : Type} (o : option A) (d : A) : A :=
  match o with
  | Some x => x
  | None => d
  end.

(** [s || d] for a string: the empty string is falsy. *)
Definition str_or (s d : string) : string :=
  match s with
  | EmptyString => d
  | _ => s
  end.

(** *** Characters *)

Definition code (c : ascii) : Z := Z.of_N (N_of_ascii c).

Definition between (lo hi : Z) (c : ascii) : bool :=
  (lo <=? code c)%Z && (code c <=? hi)%Z.

(** The value of a radix-16 digit, either case. *)
Definition hex_digit_val (c : ascii) : option Z :=
  if between 48 57 c then Some (code c - 48)%Z
  else if between 97 102 c then Some (code c - 87)%Z
  else if between 65 70 c then Some (code c - 55)%Z
  else None.

Definition is_hex_digit (c : ascii) : bool :=
  match hex_digit_val c with
  | Some _ => true
  | None => false
  end.

(** [StrWhiteSpaceChar] restricted to code units below 256:
    TAB, LF, VT, FF, CR, SP and NBSP. *)
Definition is_white_space (c : ascii) : bool :=
  between 9 13 c || (code c =? 32)%Z || (code c =? 160)%Z.

(** [String.prototype.toLowerCase] on code units below 256: [A-Z] and the
    Latin-1 capitals (all of 0xC0-0xDE but the multiplication sign). *)
Definition lower_char (c : ascii) : ascii :=
  if between 65 90 c
     || (between 192 222 c && negb (code c =? 215)%Z)
  then ascii_of_N (N_of_ascii c + 32)
  else c.

Fixpoint toLowerCase (s : string) : string :=
  match s with
  | EmptyString => EmptyString
  | String c s' => String (lower_char c) (toLowerCase s')
  end.

(** [s.replace("#", empty)]: the first occurrence of ["#"] is removed. *)
Fixpoint remove_first_hash (s : string) : string :=
  match s with
  | EmptyString => EmptyString
  | String c s' =>
      if (code c =? 35)%Z then s' else String c (remove_first_hash s')
  end.

(** *** [parseInt(s, 16)] *)

(** An integral Number value, as [parseInt] returns it. *)
Inductive integral : Type :=
| NaN : integral
| Infinite : integral
| Finite : Z -> integral.

Fixpoint skip_white_space (s : string) : string :=
  match s with
  | String c s' => if is_white_space c then skip_white_space s' else s
  | EmptyString => EmptyString
  end.

(** The optional sign: [true] for a leading ["-"]. *)
Definition strip_sign (s : string) : bool * string :=
  match s with
  | String c s' =>
      if (code c =? 45)%Z then (true, s')
      else if (code c =? 43)%Z then (false, s')
      else (false, s)
  | EmptyString => (false, s)
  end.

(** The optional ["0x"] or ["0X"] prefix, stripped for radix 16. *)
Definition strip_0x (s : string) : string :=
  match s with
  | String c0 (String c1 s') =>
      if (code c0 =? 48)%Z && ((code c1 =? 120)%Z || (code c1 =? 88)%Z)
      then s' else s
  | _ => s
  end.

(** The longest prefix of radix-16 digits, read as a number: [None] when
    that prefix is empty. [acc] holds the digits read so far. *)
Fixpoint read_hex (s : string) (acc : option Z) : option Z :=
  match s with
  | String c s' =>
      match hex_digit_val c with
      | Some d => read_hex s' (Some (16 * opt_or acc 0 + d)%Z)
      | None => acc
      end
  | EmptyString => acc
  end.

(** The Number value of a non-negative mathematical integer: the nearest
    binary64 value, ties to even, and infinity from 2^1024 on. *)
Definition to_number (n : Z) : integral :=
  if (n <? 2 ^ 53)%Z then Finite n
  else
    let shift := (Z.log2 n - 52)%Z in
    let q := Z.shiftr n shift in
    let rest := (n - Z.shiftl q shift)%Z in
    let half := Z.shiftl 1 (shift - 1) in
    let up := (half <? rest)%Z || ((half =? rest)%Z && Z.odd q) in
    let m := Z.shiftl (if up then q + 1 else q)%Z shift in
    if (m <? 2 ^ 1024)%Z then Finite m else Infinite.

Definition parseInt16 (s : string) : integral :=
  let '(negative, s1) := strip_sign (skip_white_space s) in
  match read_hex (strip_0x s1) None with
  | None => NaN
  | Some n =>
      match to_number n with
      | Finite m => Finite (if negative then - m else m)%Z
      | other => other
      end
  end.

(** [ToInt32], applied by [>>] and [&] to their left operand. *)
Definition ToInt32 (v : integral) : Z :=
  match v with
  | Finite n =>
      let m := (n mod 2 ^ 32)%Z in
      if (2 ^ 31 <=? m)%Z then (m - 2 ^ 32)%Z else m
  | _ => 0%Z
  end.

(** The integer a finite integral Number denotes. [parseInt] of a string
    that starts with a radix-16 digit is finite; the other two cases are
    sent to [0]. *)
Definition integer_of (v : integral) : Z :=
  match v with
  | Finite n => n
  | _ => 0%Z
  end.

(** [v >> k] and [v & m] on a value already converted by [ToInt32]. *)
Definition sar (v k : Z) : Z := Z.shiftr v k.
Definition band (v m : Z) : Z := Z.land v m.

(** *** [n.toString(16).padStart(2, "0")] for an integral number *)

Definition toString16 (n : Z) : string :=
  match n with
  | Z0 => "0"
  | Zpos p => NilZero.string_of_uint (Pos.to_hex_uint p)
  | Zneg p => String "-" (NilZero.string_of_uint (Pos.to_hex_uint p))
  end.

Definition padStart2 (s : string) : string :=
  match s with
  | EmptyString => "00"
  | String c EmptyString => String "0" s
  | _ => s
  end.

End JS.

(* ================================================================== *)
(** ** Colours                                                         *)
(* ================================================================== *)

(** An [{r, g, b}] object with integral channels. *)
Record RGB : Type := mkRGB { r : Z; g : Z; b : Z }.

(* ================================================================== *)
(** ** [src/app/editor/LeftSidebar.tsx]: colour helpers               *)
(* ================================================================== *)

Module LeftSidebar.
Import JS.





(** ["#"] followed by the channels, each as
    [v.toString(16).padStart(2, "0")], joined without a separator. *)
Definition rgbToHex (r g b : Z) : string :=
  String "#"
    (String.concat EmptyString
       (map (fun v => padStart2 (toString16 v)) [r; g; b])).

(** The three two-digit groups of
    [/^#?([a-f\d]{2})([a-f\d]{2})([a-f\d]{2})$/i], when the whole
    string matches. *)
Definition match_hex6 (hex : string) : option (string * string * string) :=
  let body :=
    match hex with
    | String c0 rest => if (code c0 =? 35)%Z then rest else hex
    | EmptyString => hex
    end in
  match body with
  | String a1 (String a2 (String b1 (String b2 (String c1 (String c2
      EmptyString))))) =>
      if forallb is_hex_digit [a1; a2; b1; b2; c1; c2]
      then Some (String a1 (String a2 EmptyString),
                 String b1 (String b2 EmptyString),
                 String c1 (String c2 EmptyString))
      else None
  | _ => None
  end.

(** [hexToRgb]: [null] (here [None]) when the pattern does not match,
    and else the three groups read by [parseInt(_, 16)]. *)
Definition hexToRgb (hex : string) : option RGB :=
  match match_hex6 hex with
  | None => None
  | Some (m1, m2, m3) =>
      Some (mkRGB (integer_of (parseInt16 m1))
                  (integer_of (parseInt16 m2))
                  (integer_of (parseInt16 m3)))
  end.


(** [mix]: linear interpolation in RGB space. The two [hexToRgb(...)!]
    are dereferenced unchecked, so a rejected colour makes the call throw
    (here [None]). *)
Definition mix (aHex bHex : string) (t : Q) : option string :=
  match hexToRgb aHex, hexToRgb bHex with
  | Some (mkRGB ar ag ab), Some (mkRGB br bg bb) =>
      let r := Math_round (inject_Z ar + (inject_Z br - inject_Z ar) * t) in
      let g := Math_round (inject_Z ag + (inject_Z bg - inject_Z ag) * t) in
      let b2 := Math_round (inject_Z ab + (inject_Z bb - inject_Z ab) * t) in
      Some (rgbToHex r g b2)
  | _, _ => None
  end.

(** [const clampNum = (n, min, max) => Math.max(min, Math.min(max, n))] *)
Definition clampNum (n : Q) (min max : Q) : Q := Math_max min (Math_min max n).

(** [pctFromEvent] of [SingleGradientBar]: the position of the pointer on
    the bar, as a whole percentage. [rectLeft] and [rectWidth] are those of
    the bar's bounding rectangle. On a bar of width [0] the quotient is
    [0 / 0] and the result [NaN] (here [None]). *)
Definition pctFromEvent (rectLeft rectWidth clientX : Q) : option Z :=
  let x := clampNum (clientX - rectLeft) 0 rectWidth in
  if Qeq_bool rectWidth 0 then None
  else Some (Math_round ((x / rectWidth) * 100)).

(** [s.includes(sub)] *)
Fixpoint includes (s sub : string) : bool :=
  prefix sub s
  || match s with
     | String _ s' => includes s' sub
     | EmptyString => false
     end.

(** [mapLabel] of [ShapeItem]: from the label of a menu entry to a tool
    id. *)
Definition mapLabel (lbl : string) : string :=
  let lower := toLowerCase lbl in
  if includes lower "line" then "line"
  else if includes lower "square" then "square"
  else if includes lower "rectangle" then "rectangle"
  else if includes lower "circle" then "circle"
  else if includes lower "polygon" then "polygon"
  else if includes lower "arrow" then "arrow"
  else if includes lower "custom" then "star"
  else lower.

(** What the floating panels read of the window. *)
Record Viewport : Type :=
  mkViewport { scrollY : Q; innerHeight : Q }.

(** The [panelY] that [clampToViewport] sets: [offsetHeight] is that of
    the panel when it is mounted. *)
Definition clampToViewport (offsetTopPx : Q) (panelTopAnchor : option Q)
    (offsetHeight : option Q) (win : Viewport) : Q :=
  let h := opt_or offsetHeight 0 in
  let gutter := 12 in
  let minY := win.(scrollY) + offsetTopPx + 8 in
  let maxY := win.(scrollY) + win.(innerHeight) - h - gutter in
  let anchor := opt_or panelTopAnchor (win.(scrollY) + offsetTopPx) + 8 in
  Math_max minY (Math_min anchor maxY).

(** The [panelY] that the [move] listener of a panel drag sets: the drag
    started at [startY] with the panel at [panelY]. *)
Definition dragPanelTo (offsetTopPx : Q) (panelY : option Q) (startY : Q)
    (offsetHeight : option Q) (win : Viewport) (clientY : Q) : Q :=
  let startPanelY := opt_or panelY 0 in
  let h := opt_or offsetHeight 0 in
  let gutter := 12 in
  let minY := win.(scrollY) + offsetTopPx + 8 in
  let maxY := win.(scrollY) + win.(innerHeight) - h - gutter in
  Math_max minY (Math_min (startPanelY + (clientY - startY)) maxY).

(** An entry of the uploads grid: [url] is absent on a free slot. *)
Record Slot : Type := mkSlot { id : string; url : option string }.

(** [!x.url]: an absent or empty url. *)
Definition no_url (x : Slot) : bool :=
  match x.(url) with
  | None => true
  | Some EmptyString => true
  | Some _ => false
  end.

(** [next.findIndex((x) => !x.url)], and the slot at that index replaced by
    [{ id: next[idx].id, url }]: [None] when every slot has a url. *)
Fixpoint fill_first_free (u : string) (next : list Slot)
    : option (list Slot) :=
  match next with
  | [] => None
  | x :: rest =>
      if no_url x then Some (mkSlot x.(id) (Some u) :: rest)
      else match fill_first_free u rest with
           | Some rest' => Some (x :: rest')
           | None => None
           end
  end.

(** The body of the loop of [onPickFiles] for one file: [u] is its object
    URL and [fresh] the id [crypto.randomUUID()] returns if it is asked. *)
Definition place_file (next : list Slot) (f : string * string)
    : list Slot :=
  let '(u, fresh) := f in
  match fill_first_free u next with
  | Some next' => next'
  | None => next ++ [mkSlot fresh (Some u)]
  end.

(** [onPickFiles] of [UploadsPanelDocked]: the new [files]. An empty
    selection returns before anything is set. *)
Definition onPickFiles (picked : list (string * string))
    (files : list Slot) : list Slot :=
  match picked with
  | [] => files
  | _ => fold_left place_file picked files
  end.

(** [removeAt] of [UploadsPanelDocked]. *)
Definition removeAt (i : string) (prev : list Slot) : list Slot :=
  map (fun x => if (x.(id) =? i)%string then mkSlot i None else x) prev.

(** The callbacks of the rail that [handleClick] can invoke. *)
Inductive Callback : Type :=
| ToggleBrush | ToggleColor | ToggleGradient | ToggleShapes
| ToggleTemplates | ToggleText | ToggleLayers | ToggleUploads
| SelectTool (tool : string).

(** The [kind] of a rail item. *)
Inductive Kind : Type := panel_kind | tool_kind.

(** The [id] and the [kind] of the [items] of the rail. *)
Definition items : list (string * Kind) :=
  [ ("move", tool_kind); ("brush", panel_kind); ("color", panel_kind);
    ("layers", panel_kind); ("gradient", panel_kind);
    ("shapes", panel_kind); ("templates", panel_kind);
    ("text", panel_kind); ("upload", panel_kind);
    ("crop", tool_kind) ]%string.

(** The labels of the [ShapeItem]s of the shapes menu. *)
Definition shapeLabels : list string :=
  [ "Line Tool"; "Square Tool"; "Rectangle Tool"; "Circle Tool";
    "Polygon Tool"; "Arrow Tool"; "Custom Shape" ]%string.

(** The [switch] of [handleClick]: the callback a click on the rail item
    [i] invokes, if any. *)
Definition handleClick (i : string) (kind : Kind) : option Callback :=
  if (i =? "brush")%string then Some ToggleBrush
  else if (i =? "color")%string then Some ToggleColor
  else if (i =? "gradient")%string then Some ToggleGradient
  else if (i =? "shapes")%string then Some ToggleShapes
  else if (i =? "templates")%string then Some ToggleTemplates
  else if (i =? "text")%string then Some ToggleText
  else if (i =? "layers")%string then Some ToggleLayers
  else if (i =? "upload")%string then Some ToggleUploads
  else match kind with
       | tool_kind => Some (SelectTool i)
       | panel_kind => None
       end.

End LeftSidebar.

(* ================================================================== *)
(** ** [src/app/editor/components/Stage/CanvasStage.tsx]               *)
(* ================================================================== *)

Module CanvasStage.
Import JS.

(** [Math.PI], [Math.cos] and [Math.sin] are not rational: the model is
    parametric in them. *)
Class MathLib : Type :=
  { Math_PI : Q;
    Math_cos : Q -> Q;
    Math_sin : Q -> Q }.

(** *** Helpers local to [applyGradient] *)

(** [hexToRgb]: strip the first ["#"], expand a three-character string by
    doubling each character, [parseInt] in radix 16 and split the bits. *)
Definition hexToRgb (hex : string) : RGB :=
  let h := remove_first_hash hex in
  let h :=
    match h with
    | String h0 (String h1 (String h2 EmptyString)) =>
        String h0 (String h0 (String h1 (String h1 (String h2
          (String h2 EmptyString)))))
    | _ => h
    end in
  let bigint := ToInt32 (parseInt16 h) in
  let r := band (sar bigint 16) 255 in
  let g := band (sar bigint 8) 255 in
  let b := band bigint 255 in
  mkRGB r g b.

(** The value denoted by the string [rgba(r, g, b, alpha)] that the
    template literal of [toRgba] builds: the three channels and the alpha
    are kept as numbers instead of being printed. *)
Record Rgba : Type := mkRgba { red : Z; green : Z; blue : Z; alpha : Q }.

Definition toRgba (hex : string) (alpha : Q) : Rgba :=
  let rgb := hexToRgb hex in
  mkRgba rgb.(r) rgb.(g) rgb.(b) alpha.

Definition mixColor (aHex bHex : string) (t : Q) : string :=
  let '(mkRGB ar ag ab) := hexToRgb aHex in
  let '(mkRGB br bg bb) := hexToRgb bHex in
  let r := Math_round (inject_Z ar + (inject_Z br - inject_Z ar) * t) in
  let g := Math_round (inject_Z ag + (inject_Z bg - inject_Z ag) * t) in
  let blue := Math_round (inject_Z ab + (inject_Z bb - inject_Z ab) * t) in
  String "#"
    (String.concat EmptyString
       (map (fun v => padStart2 (toString16 v)) [r; g; blue])).

(** *** The gradient handed to the rendering engine *)

Record Point : Type := mkPoint { x : Q; y : Q }.

Inductive ApplyTo : Type := fill_only | stroke_only | both.

(** The [options] argument of [applyGradient]; optional properties are
    [option]s, [None] standing for [undefined]. *)
Record GradientOptions : Type :=
  { type : string;
    c1 : string;
    c2 : string;
    mid : option Q;
    angle : option Q;
    opacity : option Q;
    origin : option Point;
    aspectRatio : option Q;
    reverse : option bool;
    applyTo : option ApplyTo }.

Inductive GradientType : Type := linear | radial.

Inductive Coords : Type :=
| LinearCoords (x1 y1 x2 y2 : Q)
| RadialCoords (x1 y1 r1 x2 y2 r2 : Q).

Record ColorStop : Type := mkStop { offset : Q; color : Rgba }.

(** The argument of [new fabric.Gradient]. *)
Record Gradient : Type :=
  mkGradient
    { gradType : GradientType;
      coords : Coords;
      colorStops : list ColorStop }.

(** [options.reverse ? a : b]. *)
Definition is_true (o : option bool) : bool :=
  match o with
  | Some true => true
  | _ => false
  end.

(** [grad], as the callback of [active.forEach] in [applyGradient] builds
    it for an object whose bounding rectangle is [width] by [height]. *)
Definition compileGradient `{MathLib}
    (options : GradientOptions) (width height : Q) : Gradient :=
  let origin := opt_or options.(origin) (mkPoint 0 0) in
  let aspect := Math_max (1 # 100) (opt_num_or options.(aspectRatio) 1) in
  let type := toLowerCase (str_or options.(type) "linear") in
  let midPct := opt_or options.(mid) 50 in
  let mid := midPct / 100 in
  let angleVal := opt_or options.(angle) 0 in
  let opacityVal := opt_or options.(opacity) 100 in
  let alpha := opacityVal / 100 in
  let cStart := if is_true options.(reverse) then options.(c2)
                else options.(c1) in
  let cEnd := if is_true options.(reverse) then options.(c1)
              else options.(c2) in
  let c1Rgba := toRgba cStart alpha in
  let c2Rgba := toRgba cEnd alpha in
  let mixedMidHex := mixColor cStart cEnd mid in
  let mixedMidRgba := toRgba mixedMidHex alpha in
  if (type =? "radial")%string || (type =? "conic")%string then
    let r2 := Math_max width height / 2 in
    mkGradient radial
      (RadialCoords (width * num_or origin.(x) (1 # 2))
                    (height * num_or origin.(y) (1 # 2))
                    0
                    (width * num_or origin.(x) (1 # 2))
                    (height * num_or origin.(y) (1 # 2))
                    r2)
      [ mkStop 0 c1Rgba; mkStop mid mixedMidRgba; mkStop 1 c2Rgba ]
  else if (type =? "diamond")%string then
    let r2 := (Math_min width height / 2) * aspect in
    mkGradient radial
      (RadialCoords (width * num_or origin.(x) (1 # 2))
                    (height * num_or origin.(y) (1 # 2))
                    0
                    (width * num_or origin.(x) (1 # 2))
                    (height * num_or origin.(y) (1 # 2))
                    r2)
      [ mkStop 0 c1Rgba; mkStop mid mixedMidRgba; mkStop 1 c2Rgba ]
  else
    let rad := (angleVal * Math_PI) / 180 in
    let x1 := width * num_or origin.(x) 0 in
    let y1 := height * num_or origin.(y) 0 in
    let x2 := x1 + Math_cos rad * width * aspect in
    let y2 := y1 + Math_sin rad * height in
    let colorStops :=
      if (type =? "reflected")%string then
        let mixStartHex := mixColor cStart cEnd mid in
        let mixStartRgba := toRgba mixStartHex alpha in
        let mirroredMid := 1 - mid in
        [ mkStop 0 c1Rgba; mkStop mid mixStartRgba;
          mkStop mirroredMid mixStartRgba; mkStop 1 c1Rgba ]
      else if (type =? "multi-point")%string || (type =? "multi")%string then
        let mix35Hex := mixColor cStart cEnd (35 # 100) in
        let mix70Hex := mixColor cStart cEnd (7 # 10) in
        [ mkStop 0 c1Rgba; mkStop (35 # 100) (toRgba mix35Hex alpha);
          mkStop (7 # 10) (toRgba mix70Hex alpha); mkStop 1 c2Rgba ]
      else
        [ mkStop 0 c1Rgba; mkStop mid mixedMidRgba; mkStop 1 c2Rgba ] in
    mkGradient linear (LinearCoords x1 y1 x2 y2) colorStops.

(** What an object's [fill] or [stroke] holds. *)
Inductive Paint : Type :=
| NoPaint
| Solid (colour : string)
| GradientPaint (grad : Gradient).

(** A canvas object: the size of [getBoundingRect(true, true)] and the
    two paints [applyGradient] sets. *)
Record FabricObject : Type :=
  mkObject
    { boundsWidth : Q;
      boundsHeight : Q;
      fill : Paint;
      stroke : Paint }.

(** [applyGradient(options)] on the active objects: each one gets the
    gradient compiled for its own bounding rectangle, as stroke, fill or
    both. With no active object nothing happens. *)
Definition applyGradient `{MathLib}
    (options : GradientOptions) (active : list FabricObject)
    : list FabricObject :=
  map (fun obj =>
         let grad :=
           compileGradient options obj.(boundsWidth) obj.(boundsHeight) in
         let applyTo := opt_or options.(applyTo) fill_only in
         let obj1 :=
           match applyTo with
           | stroke_only | both =>
               mkObject obj.(boundsWidth) obj.(boundsHeight)
                        obj.(fill) (GradientPaint grad)
           | fill_only => obj
           end in
         match applyTo with
         | fill_only | both =>
             mkObject obj1.(boundsWidth) obj1.(boundsHeight)
                      (GradientPaint grad) obj1.(stroke)
         | stroke_only => obj1
         end)
      active.

(** *** The pointer handlers *)

(** The geometry of the crop overlay, a [fabric.Rect]. *)
Record Rect : Type :=
  mkRect { left : Q; top : Q; width : Q; height : Q }.

(** [textDragRef.current] *)
Record TextDrag : Type :=
  mkTextDrag { startX : Q; startY : Q; dragging : bool }.

(** The [textMode] property. *)
Inductive TextMode : Type := point | area.

(** The refs and the property the handlers read and write. *)
Record Stage : Type :=
  mkStage
    { tool : string;                  (* toolRef.current *)
      textMode : option TextMode;
      croppingFlag : bool;            (* croppingFlagRef.current *)
      cropRect : option Rect;         (* cropRectRef.current *)
      cropStart : Point;              (* cropStartRef.current *)
      textDrag : option TextDrag }.   (* textDragRef.current *)

(** The requests a handler sends to the rendering engine, in order. *)
Inductive EngineCall : Type :=
| AddOverlay (rect : Rect)
| AddShape (kind : string) (x y : Q)
| AddTextbox (left top width height : Q)
| AddIText (left top : Q)
| RemoveOverlay
| ToDataURL (left top width height : Q)
| RemoveExportable
| AddImage (left top : Q).

Definition is_shape_tool (t : string) : bool :=
  existsb (String.eqb t)
    [ "rect"; "rectangle"; "square"; "circle"; "ellipse"; "polygon";
      "line"; "arrow"; "star" ]%string.

(** [handleMouseDown]: [target] tells whether the pointer is over an
    object, [pointer] is [canvas.getPointer(opt.e)]. *)
Definition handleMouseDown (target : bool) (pointer : Point) (st : Stage)
    : Stage * list EngineCall :=
  if target then (st, [])
  else
    let t := st.(tool) in
    if (t =? "crop")%string then
      let rect := mkRect pointer.(x) pointer.(y) 0 0 in
      (mkStage st.(tool) st.(textMode) true (Some rect) pointer
               st.(textDrag),
       [AddOverlay rect])
    else if is_shape_tool t then
      (st, [AddShape t pointer.(x) pointer.(y)])
    else if (t =? "text")%string then
      (mkStage st.(tool) st.(textMode) st.(croppingFlag) st.(cropRect)
               st.(cropStart)
               (Some (mkTextDrag pointer.(x) pointer.(y) false)),
       [])
    else (st, []).


(** [handleMouseUp]: the text branch first, then the crop branch. *)
Definition handleMouseUp (pointer : Point) (st : Stage)
    : Stage * list EngineCall :=
  match (st.(tool) =? "text")%string, st.(textDrag) with
  | true, Some start =>
      let dx := Math_abs (pointer.(x) - start.(startX)) in
      let dy := Math_abs (pointer.(y) - start.(startY)) in
      let dragged := gtb dx 4 || gtb dy 4 in
      let forceArea :=
        match st.(textMode) with Some area => true | _ => false end in
      let forcePoint :=
        match st.(textMode) with Some point => true | _ => false end in
      let st' := mkStage st.(tool) st.(textMode) st.(croppingFlag)
                         st.(cropRect) st.(cropStart) None in
      if (dragged && negb forcePoint) || forceArea then
        let w := Math_max 40 dx in
        let h := Math_max 24 dy in
        (st', [AddTextbox (Math_min start.(startX) pointer.(x))
                          (Math_min start.(startY) pointer.(y)) w h])
      else
        (st', [AddIText start.(startX) start.(startY)])
  | _, _ =>
      match st.(cropRect) with
      | Some rect =>
          if negb (st.(tool) =? "crop")%string || negb st.(croppingFlag)
          then (st, [])
          else
            let left := num_or rect.(left) 0 in
            let top := num_or rect.(top) 0 in
            let width := num_or rect.(width) 0 in
            let height := num_or rect.(height) 0 in
            let '(left, width) :=
              if ltb width 0 then (left + width, Math_abs width)
              else (left, width) in
            let '(top, height) :=
              if ltb height 0 then (top + height, Math_abs height)
              else (top, height) in
            (mkStage st.(tool) st.(textMode) false None st.(cropStart)
                     st.(textDrag),
             [RemoveOverlay; ToDataURL left top width height;
              RemoveExportable; AddImage left top])
      | None => (st, [])
      end
  end.


(** *** Images dropped or picked *)

Definition MAX_IMG_SIDE : Q := 600.

(** What [addImages] sets on a loaded image: its position and the factor
    passed to [img.scale], [1] (the factor of a fresh image) when that call
    is skipped. *)
Record Placement : Type :=
  mkPlacement { placedLeft : Q; placedTop : Q; placedScale : Q }.

(** [Math.min(1, MAX_IMG_SIDE / Math.max(w, h))], with [w] and [h]
    defaulting to [MAX_IMG_SIDE]. A quotient by [0] is [Infinity], so the
    minimum is [1]. *)
Definition imageScale (imgWidth imgHeight : option Q) : Q :=
  let w := opt_or imgWidth MAX_IMG_SIDE in
  let h := opt_or imgHeight MAX_IMG_SIDE in
  let longest := Math_max w h in
  if Qeq_bool longest 0 then 1
  else Math_min 1 (MAX_IMG_SIDE / longest).

(** The body of the callback of [addImages] for the item at [index]. *)
Definition placeImage (index : nat) (imgWidth imgHeight : option Q)
    : Placement :=
  let scale := imageScale imgWidth imgHeight in
  let i := inject_Z (Z.of_nat index) in
  mkPlacement (80 + i * 20) (80 + i * 20)
              (if ltb scale 1 then scale else 1).

(** The body of the callback of [addImagesAt] for the item at [index]. *)
Definition placeImageAt (px py : Q) (index : nat)
    (imgWidth imgHeight : option Q) : Placement :=
  let scale := imageScale imgWidth imgHeight in
  let i := inject_Z (Z.of_nat index) in
  mkPlacement (px + i * 10) (py + i * 10)
              (if ltb scale 1 then scale else 1).

(** The items of a [forEach], each with its index. *)
Fixpoint indexed {A : Type} (from : nat) (l : list A) : list (nat * A) :=
  match l with
  | [] => []
  | a :: rest => (from, a) :: indexed (S from) rest
  end.

(** What [loadFabricImage] gives for an item: [None] when the load fails,
    and else the [width] and the [height] of the image, which may be
    absent. *)
Definition Loaded : Type := option (option Q * option Q).

(** [addImages(items)]: what is added to the canvas for each item. An item
    whose image fails to load adds nothing and keeps its index. *)
Definition addImages (items : list Loaded) : list (option Placement) :=
  map (fun '(index, item) =>
         match item with
         | Some (w, h) => Some (placeImage index w h)
         | None => None
         end)
      (indexed 0 items).

(** [addImagesAt(x, y, items)] *)
Definition addImagesAt (px py : Q) (items : list Loaded)
    : list (option Placement) :=
  map (fun '(index, item) =>
         match item with
         | Some (w, h) => Some (placeImageAt px py index w h)
         | None => None
         end)
      (indexed 0 items).

(** The arguments of [ctx.drawImage(imgEl, dx, dy, dw, dh)] and the size of
    the pattern canvas, when an image is dropped on a selected shape. *)
Record PatternFit : Type :=
  mkPatternFit
    { patternWidth : Z; patternHeight : Z;
      drawX : Q; drawY : Q; drawWidth : Q; drawHeight : Q }.

(** The fit computed by [onDrop] for a shape whose bounding rectangle is
    [boundsW] by [boundsH] and an image of [imgW] by [imgH]. With a side of
    the image at [0] the quotients are not finite (here [None]). *)
Definition patternFit (boundsW boundsH imgW imgH : Q) : option PatternFit :=
  let pw := Z.max 1 (Math_round boundsW) in
  let ph := Z.max 1 (Math_round boundsH) in
  if Qeq_bool imgW 0 || Qeq_bool imgH 0 then None
  else
    let scale := Math_min (inject_Z pw / imgW) (inject_Z ph / imgH) in
    let dw := imgW * scale in
    let dh := imgH * scale in
    let dx := (inject_Z pw - dw) / 2 in
    let dy := (inject_Z ph - dh) / 2 in
    Some (mkPatternFit pw ph dx dy dw dh).

End CanvasStage.

(* ================================================================== *)
(** ** [src/app/editor/fabric/rulers/Ruler.ts]                         *)
(* ================================================================== *)

Module Rulers.
Import JS.

(** The fields of a [Rulers] object that change after construction. *)
Record Rulers : Type :=
  mkRulers { zoom : Q; pointerX : Q; pointerY : Q }.

(** The field initialisers. *)
Definition fresh : Rulers := mkRulers 1 0 0.

Definition setZoom (z : Q) (r : Rulers) : Rulers :=
  mkRulers z r.(pointerX) r.(pointerY).

(** [updatePointer(e)], from [e.offsetX] and [e.offsetY]. *)
Definition updatePointer (offsetX offsetY : Q) (r : Rulers) : Rulers :=
  mkRulers r.(zoom) offsetX offsetY.

Definition bases : list Q :=
  [1; 2; 5; 10; 20; 25; 50; 100; 200; 250; 500; 1000].

(** The loop of [chooseUnit]: the first [b] of [bs] with [b >= raw], and
    [best] when there is none. *)
Fixpoint first_at_least (raw : Q) (bs : list Q) (best : Q) : Q :=
  match bs with
  | [] => best
  | b :: rest => if Qle_bool raw b then b else first_at_least raw rest best
  end.

(** [chooseUnit]. At zoom [0] the quotient [raw] is [Infinity], which no
    base reaches. *)
Definition chooseUnit (r : Rulers) : Q :=
  let pxTarget := 100 in
  let best := hd 1 bases in
  if Qeq_bool r.(zoom) 0 then best
  else
    let raw := pxTarget / r.(zoom) in
    first_at_least raw bases best.

Definition Math_floor (x : Q) : Z := Qfloor x.

(** A major tick of the top ruler and the nine minor ticks after it, each
    as the abscissa handed to [moveTo]. *)
Record Tick : Type := mkTick { major : Q; minors : list Q }.

(** The inner loop of [render]: [j] from [1] to [9]. *)
Definition minorTicks (x unit originX zoom : Q) : list Q :=
  let minorStep := unit / 10 in
  map (fun j => (x + inject_Z j * minorStep - originX) * zoom + (1 # 2))
      [1; 2; 3; 4; 5; 6; 7; 8; 9]%Z.

(** The outer loop of [render]: [x] advances by [unit] while it is below
    [limit]. [None] when [fuel] iterations do not reach the end. *)
Fixpoint ticksFrom (fuel : nat) (x limit unit originX zoom : Q)
    : option (list Tick) :=
  if ltb x limit then
    match fuel with
    | O => None
    | S n =>
        match ticksFrom n (x + unit) limit unit originX zoom with
        | Some rest =>
            let px := (x - originX) * zoom in
            Some (mkTick (px + (1 # 2)) (minorTicks x unit originX zoom)
                    :: rest)
        | None => None
        end
    end
  else Some [].

(** [Math.max(0, w - 48)] *)
Definition avail (w : Q) : Q := Math_max 0 (w - 48).

(** The ticks [render] draws on the top and on the bottom ruler, for a
    canvas [w] wide whose [viewportTransform[4]] is [vpt4]. At zoom [0] the
    bounds of the loop are not finite and its test fails at once. *)
Definition topTicks (fuel : nat) (r : Rulers) (w vpt4 : Q)
    : option (list Tick) :=
  if Qeq_bool r.(zoom) 0 then Some []
  else
    let availW := avail w in
    let originX := - vpt4 / r.(zoom) in
    let unit := chooseUnit r in
    let start := inject_Z (Math_floor (originX / unit)) * unit in
    ticksFrom fuel start (originX + availW / r.(zoom)) unit originX r.(zoom).

(** The abscissa [tx] of the follower triangle. *)
Definition followerX (r : Rulers) (w : Q) : Q :=
  Math_max 0 (Math_min (avail w) r.(pointerX)).

End Rulers.

(* ================================================================== *)
(** ** [src/unnamed/part_004]: the canvas engine                       *)
(* ================================================================== *)

Module CanvasEngine.
Import JS.

(** [viewportTransform], an array of six numbers. *)
Record Vpt : Type :=
  mkVpt { v0 : Q; v1 : Q; v2 : Q; v3 : Q; v4 : Q; v5 : Q }.

(** The methods of [fabric.Canvas] the engine calls. *)
Class FabricCanvas (C : Type) : Type :=
  { getWidth : C -> Q;
    getHeight : C -> Q;
    getZoom : C -> Q;
    viewportTransform : C -> Vpt;
    zoomToPoint : CanvasStage.Point -> Q -> C -> C;
    setViewportTransform : Vpt -> C -> C;
    setDimensions : Q -> Q -> C -> C }.

Record Bleed : Type :=
  mkBleed { top : Q; right : Q; bottom : Q; left : Q }.

(** [Partial<Bleed>]: [None] for a key that is absent. *)
Record PartialBleed : Type :=
  mkPartialBleed
    { newTop : option Q; newRight : option Q;
      newBottom : option Q; newLeft : option Q }.

(** The fields of a [CanvasEngine]; of [bleedRect], its geometry. *)
Record Engine (C : Type) : Type :=
  mkEngine
    { canvas : C;
      rulers : Rulers.Rulers;
      bleedRect : CanvasStage.Rect;
      bleed : Bleed;
      minZoom : Q;
      maxZoom : Q }.

Arguments mkEngine {C}.
Arguments canvas {C}.
Arguments rulers {C}.
Arguments bleedRect {C}.
Arguments bleed {C}.
Arguments minZoom {C}.
Arguments maxZoom {C}.

(** The defaults of the constructor. *)
Definition defaultMinZoom : Q := 1 # 10.
Definition defaultMaxZoom : Q := 8.

(** [positionBleed] *)
Definition positionBleed {C : Type} `{FabricCanvas C} (e : Engine C)
    : Engine C :=
  let w := getWidth e.(canvas) in
  let h := getHeight e.(canvas) in
  mkEngine e.(canvas) e.(rulers)
    (CanvasStage.mkRect e.(bleed).(left) e.(bleed).(top)
       (Math_max 0 (w - e.(bleed).(left) - e.(bleed).(right)))
       (Math_max 0 (h - e.(bleed).(top) - e.(bleed).(bottom))))
    e.(bleed) e.(minZoom) e.(maxZoom).

(** [{ ...this.bleed, ...b }] *)
Definition merge (old : Bleed) (b : PartialBleed) : Bleed :=
  mkBleed (opt_or b.(newTop) old.(top)) (opt_or b.(newRight) old.(right))
          (opt_or b.(newBottom) old.(bottom)) (opt_or b.(newLeft) old.(left)).

(** [setBleed(b)], through [updateBleed]. *)
Definition setBleed {C : Type} `{FabricCanvas C} (b : PartialBleed)
    (e : Engine C) : Engine C :=
  positionBleed
    (mkEngine e.(canvas) e.(rulers) e.(bleedRect) (merge e.(bleed) b)
              e.(minZoom) e.(maxZoom)).

(** [resizeToWrap]: [rectWidth] and [rectHeight] are those of the bounding
    rectangle of the wrapper. *)
Definition resizeToWrap {C : Type} `{FabricCanvas C}
    (rectWidth rectHeight : Q) (e : Engine C) : Engine C :=
  positionBleed
    (mkEngine (setDimensions rectWidth rectHeight e.(canvas)) e.(rulers)
              e.(bleedRect) e.(bleed) e.(minZoom) e.(maxZoom)).

(** [setZoom(z)] *)
Definition setZoom {C : Type} `{FabricCanvas C} (z : Q) (e : Engine C)
    : Engine C :=
  let z := Math_max e.(minZoom) (Math_min e.(maxZoom) z) in
  let center :=
    CanvasStage.mkPoint (getWidth e.(canvas) / 2)
                        (getHeight e.(canvas) / 2) in
  mkEngine (zoomToPoint center z e.(canvas)) (Rulers.setZoom z e.(rulers))
           e.(bleedRect) e.(bleed) e.(minZoom) e.(maxZoom).

(** [zoomIn(step = 0.1)] and [zoomOut(step = 0.1)] *)
Definition zoomIn {C : Type} `{FabricCanvas C} (step : option Q)
    (e : Engine C) : Engine C :=
  let step := opt_or step (1 # 10) in
  setZoom (getZoom e.(canvas) * (1 + step)) e.

Definition zoomOut {C : Type} `{FabricCanvas C} (step : option Q)
    (e : Engine C) : Engine C :=
  let step := opt_or step (1 # 10) in
  setZoom (getZoom e.(canvas) * (1 - step)) e.

(** [centerViewport] *)
Definition centerViewport {C : Type} `{FabricCanvas C} (e : Engine C)
    : Engine C :=
  let w := getWidth e.(canvas) in
  let h := getHeight e.(canvas) in
  let vp := getZoom e.(canvas) in
  let dx := (getWidth e.(canvas) - w * vp) / 2 in
  let dy := (getHeight e.(canvas) - h * vp) / 2 in
  mkEngine (setViewportTransform (mkVpt vp 0 0 vp dx dy) e.(canvas))
           e.(rulers) e.(bleedRect) e.(bleed) e.(minZoom) e.(maxZoom).

(** A quotient of two numbers, which is not finite when the divisor is
    [0]. *)
Inductive Quotient : Type :=
| Num (q : Q)
| PlusInfinity
| MinusInfinity
| NotANumber.

Definition quotient (a d : Q) : Quotient :=
  if Qeq_bool d 0 then
    if ltb 0 a then PlusInfinity
    else if ltb a 0 then MinusInfinity
    else NotANumber
  else Num (a / d).

(** [Math.min] on two quotients. *)
Definition min_quotient (a d : Quotient) : Quotient :=
  match a, d with
  | NotANumber, _ | _, NotANumber => NotANumber
  | MinusInfinity, _ | _, MinusInfinity => MinusInfinity
  | PlusInfinity, other | other, PlusInfinity => other
  | Num p, Num q => Num (Math_min p q)
  end.

(** [Math.max(lo, Math.min(hi, z))] for a quotient [z]: [None] when it is
    [NaN]. *)
Definition clamp_quotient (lo hi : Q) (z : Quotient) : option Q :=
  match z with
  | Num q => Some (Math_max lo (Math_min hi q))
  | PlusInfinity => Some (Math_max lo hi)
  | MinusInfinity => Some lo
  | NotANumber => None
  end.

(** [zoomToFit(padding = 40)]: [None] when the zoom it computes is [NaN]. *)
Definition zoomToFit {C : Type} `{FabricCanvas C} (padding : option Q)
    (e : Engine C) : option (Engine C) :=
  let padding := opt_or padding 40 in
  let cw := getWidth e.(canvas) - padding * 2 in
  let ch := getHeight e.(canvas) - padding * 2 in
  let w := getWidth e.(canvas) in
  let h := getHeight e.(canvas) in
  let z := min_quotient (quotient cw w) (quotient ch h) in
  match clamp_quotient e.(minZoom) e.(maxZoom) z with
  | Some z' => Some (centerViewport (setZoom z' e))
  | None => None
  end.

End CanvasEngine.

(* ================================================================== *)
(** ** [src/app/editor/page.tsx]: the state of the editor page         *)
(* ================================================================== *)

Module Page.
Import JS.

(** The [useState] cells of [EditorPage] that the rail and the menus
    write. *)
Record State : Type :=
  mkState
    { selectedTool : string;
      showColorPicker : bool;
      showGradientPanel : bool;
      showShapeMenu : bool;
      showTemplatesPanel : bool;
      showTextPanel : bool;
      showLayersPanel : bool;
      showUploadsPanel : bool;
      showBrushPanel : bool;
      textMode : CanvasStage.TextMode }.

(** The initial values of the cells. *)
Definition initial : State :=
  mkState "move" false false false false false false false false
          CanvasStage.point.

Definition onSelectTool (i : string) (s : State) : State :=
  mkState i false false false false false false false false s.(textMode).

Definition onToggleColor (s : State) : State :=
  mkState s.(selectedTool) (negb s.(showColorPicker)) false false false
          false false false false s.(textMode).

Definition onToggleGradient (s : State) : State :=
  mkState s.(selectedTool) false (negb s.(showGradientPanel)) false false
          false false false false s.(textMode).

Definition onToggleShapes (s : State) : State :=
  mkState s.(selectedTool) false false (negb s.(showShapeMenu)) false
          false false false false s.(textMode).

Definition onToggleTemplates (s : State) : State :=
  mkState s.(selectedTool) false false false (negb s.(showTemplatesPanel))
          false false false false s.(textMode).

Definition onToggleText (s : State) : State :=
  mkState s.(selectedTool) false false false false
          (negb s.(showTextPanel)) false false false s.(textMode).

Definition onToggleLayers (s : State) : State :=
  mkState s.(selectedTool) false false false false
          false (negb s.(showLayersPanel)) false false s.(textMode).

Definition onToggleUploads (s : State) : State :=
  mkState s.(selectedTool) false false false false
          false false (negb s.(showUploadsPanel)) false s.(textMode).

Definition onToggleBrush (s : State) : State :=
  mkState "brush" false false false false
          false false false (negb s.(showBrushPanel)) s.(textMode).

(** [onTextLayoutChange(mode)]: the modes ["path"] and ["wrap"] only reach
    the stage. *)
Definition onTextLayoutChange (mode : string) (s : State) : State :=
  let to_text (m : CanvasStage.TextMode) :=
    mkState "text" s.(showColorPicker) s.(showGradientPanel)
            s.(showShapeMenu) s.(showTemplatesPanel) s.(showTextPanel)
            s.(showLayersPanel) s.(showUploadsPanel) s.(showBrushPanel) m in
  if (mode =? "point")%string then to_text CanvasStage.point
  else if (mode =? "area")%string then to_text CanvasStage.area
  else s.

Definition onShapeSelect (shapeId : string) (s : State) : State :=
  mkState shapeId s.(showColorPicker) s.(showGradientPanel) false
          s.(showTemplatesPanel) s.(showTextPanel) s.(showLayersPanel)
          s.(showUploadsPanel) s.(showBrushPanel) s.(textMode).

Definition onTemplateSelect (s : State) : State :=
  mkState s.(selectedTool) s.(showColorPicker) s.(showGradientPanel)
          s.(showShapeMenu) false s.(showTextPanel) s.(showLayersPanel)
          s.(showUploadsPanel) s.(showBrushPanel) s.(textMode).

(** The properties of [LeftSidebar] that [handleClick] invokes, as they
    are bound in the page. *)
Definition invoke (cb : LeftSidebar.Callback) (s : State) : State :=
  match cb with
  | LeftSidebar.ToggleBrush => onToggleBrush s
  | LeftSidebar.ToggleColor => onToggleColor s
  | LeftSidebar.ToggleGradient => onToggleGradient s
  | LeftSidebar.ToggleShapes => onToggleShapes s
  | LeftSidebar.ToggleTemplates => onToggleTemplates s
  | LeftSidebar.ToggleText => onToggleText s
  | LeftSidebar.ToggleLayers => onToggleLayers s
  | LeftSidebar.ToggleUploads => onToggleUploads s
  | LeftSidebar.SelectTool i => onSelectTool i s
  end.

(** A call of one of the handlers the page binds on [LeftSidebar]. *)
Inductive Action : Type :=
| Rail (cb : LeftSidebar.Callback)
| ShapeSelect (shapeId : string)
| TemplateSelect
| TextLayoutChange (mode : string).

Definition act (s : State) (a : Action) : State :=
  match a with
  | Rail cb => invoke cb s
  | ShapeSelect shapeId => onShapeSelect shapeId s
  | TemplateSelect => onTemplateSelect s
  | TextLayoutChange mode => onTextLayoutChange mode s
  end.

(** The elements of [LeftSidebar] that call these handlers when they are
    clicked: a button of the rail, an entry of the shapes menu, a
    template. *)
Inductive Click : Type :=
| RailButton (item : string * LeftSidebar.Kind)
| ShapeItem (label : string)
| TemplateItem.

Definition clicked (c : Click) : option Action :=
  match c with
  | RailButton (i, kind) =>
      match LeftSidebar.handleClick i kind with
      | Some cb => Some (Rail cb)
      | None => None
      end
  | ShapeItem label => Some (ShapeSelect (LeftSidebar.mapLabel label))
  | TemplateItem => Some TemplateSelect
  end.

Definition click (s : State) (c : Click) : State :=
  match clicked c with
  | Some a => act s a
  | None => s
  end.

(** [showTextTools] of [PreviewSidebar]. *)
Definition showTextTools (s : State) : bool :=
  s.(showTextPanel) && (s.(selectedTool) =? "text")%string.

(** The stage under the properties the page passes down: the effect on
    [selectedTool] stores it in [toolRef], and the handlers read
    [textMode]. *)
Definition render (s : State) (st : CanvasStage.Stage)
    : CanvasStage.Stage :=
  CanvasStage.mkStage s.(selectedTool) (Some s.(textMode))
    st.(CanvasStage.croppingFlag) st.(CanvasStage.cropRect)
    st.(CanvasStage.cropStart) st.(CanvasStage.textDrag).

End Page.

(* ================================================================== *)
(** ** Vocabulary of the properties                                    *)
(* ================================================================== *)

Module Props.
Import JS CanvasStage.

(** A [MathLib] to evaluate the compiler with: the binary64 value of
    [Math.PI], and polynomials that agree with the cosine and the sine at
    [0], where the examples use them. *)
Definition sample_math : MathLib :=
  {| Math_PI := 884279719003555 # 281474976710656;
     Math_cos := fun a => 1 - a * a / 2;
     Math_sin := fun a => a |}.

(** The facts about [Math.cos] and [Math.sin] the examples rely on. *)
Definition exact_at_zero (M : MathLib) : Prop :=
  (forall a, a == 0 -> Math_cos a == 1) /\
  (forall a, a == 0 -> Math_sin a == 0).

(** The family name [applyGradient] dispatches on. *)
Definition family (options : GradientOptions) : string :=
  toLowerCase (str_or options.(type) "linear").




Definition with_reverse (rv : option bool) (o : GradientOptions)
    : GradientOptions :=
  {| type := o.(type); c1 := o.(c1); c2 := o.(c2); mid := o.(mid);
     angle := o.(angle); opacity := o.(opacity); origin := o.(origin);
     aspectRatio := o.(aspectRatio); reverse := rv;
     applyTo := o.(applyTo) |}.

Definition swap_colours (o : GradientOptions) : GradientOptions :=
  {| type := o.(type); c1 := o.(c2); c2 := o.(c1); mid := o.(mid);
     angle := o.(angle); opacity := o.(opacity); origin := o.(origin);
     aspectRatio := o.(aspectRatio); reverse := o.(reverse);
     applyTo := o.(applyTo) |}.

(** The resolved numbers of an options object. *)
Definition midOf (o : GradientOptions) : Q := opt_or o.(mid) 50 / 100.
Definition alphaOf (o : GradientOptions) : Q := opt_or o.(opacity) 100 / 100.
Definition radOf `{MathLib} (o : GradientOptions) : Q :=
  (opt_or o.(angle) 0 * Math_PI) / 180.

(** The aspect factor in the words of the specification: [max(0.01, a)]
    for a supplied non-zero [a], and [1] otherwise. *)
Definition effective_aspect (o : GradientOptions) : Q :=
  match o.(aspectRatio) with
  | Some a => if Qeq_bool a 0 then 1 else Math_max (1 # 100) a
  | None => 1
  end.

(** The origin fraction along one axis, with [d] for an absent origin or a
    zero coordinate. *)
Definition origin_fraction (o : GradientOptions) (axis : Point -> Q) (d : Q)
    : Q :=
  match o.(origin) with
  | Some p => if Qeq_bool (axis p) 0 then d else axis p
  | None => d
  end.

(** The branch a family name selects. *)
Inductive Branch : Type :=
| radial_branch | diamond_branch | reflected_branch | multi_branch
| linear_branch.

Definition branch (t : string) : Branch :=
  if (t =? "radial")%string || (t =? "conic")%string then radial_branch
  else if (t =? "diamond")%string then diamond_branch
  else if (t =? "reflected")%string then reflected_branch
  else if (t =? "multi-point")%string || (t =? "multi")%string
  then multi_branch
  else linear_branch.

(** The colour pair after the [reverse] swap. *)
Definition cStartOf (o : GradientOptions) : string :=
  if is_true o.(reverse) then o.(c2) else o.(c1).
Definition cEndOf (o : GradientOptions) : string :=
  if is_true o.(reverse) then o.(c1) else o.(c2).

Definition startStop (o : GradientOptions) : ColorStop :=
  mkStop 0 (toRgba (cStartOf o) (alphaOf o)).
Definition endStop (o : GradientOptions) : ColorStop :=
  mkStop 1 (toRgba (cEndOf o) (alphaOf o)).
Definition mixStop (o : GradientOptions) (at_ t : Q) : ColorStop :=
  mkStop at_ (toRgba (mixColor (cStartOf o) (cEndOf o) t) (alphaOf o)).

Definition radialCoords (o : GradientOptions) (w h r2 : Q) : Coords :=
  RadialCoords (w * origin_fraction o x (1 # 2))
               (h * origin_fraction o y (1 # 2)) 0
               (w * origin_fraction o x (1 # 2))
               (h * origin_fraction o y (1 # 2)) r2.

Definition linearCoords `{MathLib} (o : GradientOptions) (w h : Q) : Coords :=
  let x1 := w * origin_fraction o x 0 in
  let y1 := h * origin_fraction o y 0 in
  LinearCoords x1 y1
    (x1 + Math_cos (radOf o) * w * effective_aspect o)
    (y1 + Math_sin (radOf o) * h).

(** Strings of six and of three characters. *)
Definition six (c1 c2 c3 c4 c5 c6 : ascii) : string :=
  String c1 (String c2 (String c3 (String c4 (String c5
    (String c6 EmptyString))))).

Definition three (c1 c2 c3 : ascii) : string :=
  String c1 (String c2 (String c3 EmptyString)).

(** The number six radix-16 digits denote. *)
Definition hex6_value (v1 v2 v3 v4 v5 v6 : Z) : Z :=
  ((16 * v1 + v2) * 65536 + (16 * v3 + v4) * 256 + (16 * v5 + v6))%Z.

(** An 8-bit colour channel. *)
Definition channel (v : Z) : Prop := (0 <= v <= 255)%Z.





(** The options of the worked example of the specification. *)
Definition example_options : GradientOptions :=
  {| type := "linear"; c1 := "#ff0000"; c2 := "#0000ff";
     mid := Some 50; angle := Some 0; opacity := Some 100;
     origin := None; aspectRatio := None; reverse := Some false;
     applyTo := None |}.

(** A diamond gradient with a negative aspect ratio. *)
Definition squashed_diamond : GradientOptions :=
  {| type := "Diamond"; c1 := "#ff0000"; c2 := "#0000ff";
     mid := None; angle := None; opacity := None;
     origin := None; aspectRatio := Some (-2); reverse := None;
     applyTo := None |}.

(** A linear gradient whose midpoint lies beyond the end. *)
Definition overshoot_options : GradientOptions :=
  {| type := "linear"; c1 := "#ff0000"; c2 := "#0000ff";
     mid := Some 150; angle := None; opacity := None;
     origin := None; aspectRatio := None; reverse := None;
     applyTo := None |}.

(** A reflected gradient whose midpoint lies in the second half. *)
Definition late_reflected_options : GradientOptions :=
  {| type := "reflected"; c1 := "#ff0000"; c2 := "#0000ff";
     mid := Some 75; angle := None; opacity := None;
     origin := None; aspectRatio := None; reverse := None;
     applyTo := None |}.


(** Pointer sessions. *)






Definition with_textMode (mode : option TextMode) (st : Stage) : Stage :=
  mkStage st.(tool) mode st.(croppingFlag) st.(cropRect) st.(cropStart)
          st.(textDrag).

(** Pointer down at [s] and pointer up at [p] under the text mode [mode]. *)
Definition press_and_release (mode : option TextMode) (s p : Point)
    (st : Stage) : Stage * list EngineCall :=
  handleMouseUp p (fst (handleMouseDown false s (with_textMode mode st))).









(** Stop lists. *)
Definition offsets (g : Gradient) : list Q := map offset g.(colorStops).

Fixpoint nondecreasing (l : list Q) : bool :=
  match l with
  | a :: (b :: _) as rest => Qle_bool a b && nondecreasing rest
  | _ => true
  end.

Definition in_unit_interval (l : list Q) : bool :=
  forallb (fun o => Qle_bool 0 o && Qle_bool o 1) l.

(** Equality of values up to the equality of the numbers in them. *)
Definition rgba_equiv (a b : Rgba) : Prop :=
  a.(red) = b.(red) /\ a.(green) = b.(green) /\ a.(blue) = b.(blue) /\
  a.(alpha) == b.(alpha).

Definition stop_equiv (s t : ColorStop) : Prop :=
  s.(offset) == t.(offset) /\ rgba_equiv s.(color) t.(color).

Definition coords_equiv (a b : Coords) : Prop :=
  match a, b with
  | LinearCoords x1 y1 x2 y2, LinearCoords x1' y1' x2' y2' =>
      x1 == x1' /\ y1 == y1' /\ x2 == x2' /\ y2 == y2'
  | RadialCoords x1 y1 r1 x2 y2 r2, RadialCoords x1' y1' r1' x2' y2' r2' =>
      x1 == x1' /\ y1 == y1' /\ r1 == r1' /\
      x2 == x2' /\ y2 == y2' /\ r2 == r2'
  | _, _ => False
  end.


End Props.

Import JS CanvasStage Props.

(* ================================================================== *)
(** ** Facts about the primitives                                      *)
(* ================================================================== *)

Section Primitives.

Lemma Math_max_cases (a b : Q) :
  (a <= b /\ Math_max a b = b) \/ (b < a /\ Math_max a b = a).
Proof.
  unfold Math_max. destruct (Qle_bool a b) eqn:E.
  - left. split; [apply Qle_bool_iff; exact E | reflexivity].
  - right. split; [| reflexivity].
    apply Qnot_le_lt. intros C. apply Qle_bool_iff in C. congruence.
Qed.

Lemma Math_min_cases (a b : Q) :
  (a <= b /\ Math_min a b = a) \/ (b < a /\ Math_min a b = b).
Proof.
  unfold Math_min. destruct (Qle_bool a b) eqn:E.
  - left. split; [apply Qle_bool_iff; exact E | reflexivity].
  - right. split; [| reflexivity].
    apply Qnot_le_lt. intros C. apply Qle_bool_iff in C. congruence.
Qed.

Lemma Qsquare_nonneg (d : Q) : 0 <= d * d.
Proof.
  destruct (Qlt_le_dec d 0) as [Hn|Hp].
  - assert (E : d * d == (- d) * (- d)) by ring.
    rewrite E. apply Qmult_le_0_compat; lra.
  - apply Qmult_le_0_compat; exact Hp.
Qed.

Lemma ltb_true_iff (a c : Q) : ltb a c = true <-> a < c.
Proof.
  unfold ltb. rewrite negb_true_iff. split.
  - intros E. apply Qnot_le_lt. intros C. apply Qle_bool_iff in C. congruence.
  - intros H. destruct (Qle_bool c a) eqn:E; [|reflexivity].
    apply Qle_bool_iff in E. lra.
Qed.

Lemma ltb_false_iff (a c : Q) : ltb a c = false <-> c <= a.
Proof.
  unfold ltb. rewrite negb_false_iff. apply Qle_bool_iff.
Qed.

Lemma gtb_true_iff (a c : Q) : gtb a c = true <-> c < a.
Proof. apply (ltb_true_iff c a). Qed.

Lemma gtb_false_iff (a c : Q) : gtb a c = false <-> a <= c.
Proof. apply (ltb_false_iff c a). Qed.


Lemma Qle_bool_true (a c : Q) : a <= c -> Qle_bool a c = true.
Proof. apply Qle_bool_iff. Qed.

Lemma Qle_bool_false (a c : Q) : c < a -> Qle_bool a c = false.
Proof.
  intros H. destruct (Qle_bool a c) eqn:E; [|reflexivity].
  apply Qle_bool_iff in E. lra.
Qed.


End Primitives.

(* ================================================================== *)
(** ** Hexadecimal colours                                             *)
(* ================================================================== *)

Section HexColours.
Local Open Scope Z_scope.

Lemma hex_digit_val_range (c : ascii) (v : Z) :
  hex_digit_val c = Some v -> 0 <= v < 16.
Proof.
  unfold hex_digit_val, between.
  repeat match goal with
         | |- context [if ?t then _ else _] => destruct t eqn:?
         end;
    intros E; inversion E; subst; lia.
Qed.

(** A radix-16 digit is none of the characters [parseInt] and [replace]
    treat specially: white space, ["#"], the signs and the ["x"] of the
    prefix. *)
Lemma hex_digit_plain (c : ascii) (v : Z) :
  hex_digit_val c = Some v ->
  is_white_space c = false
  /\ (code c =? 35) = false
  /\ (code c =? 45) = false /\ (code c =? 43) = false
  /\ (code c =? 120) = false /\ (code c =? 88) = false.
Proof.
  intros H.
  assert (Hcode : 48 <= code c <= 57 \/ 97 <= code c <= 102
                  \/ 65 <= code c <= 70).
  { revert H. unfold hex_digit_val, between.
    repeat match goal with
           | |- context [if ?t then _ else _] => destruct t eqn:?
           end;
      intros E; try discriminate; lia. }
  unfold is_white_space, between.
  repeat split;
    repeat match goal with
           | |- _ || _ = false => apply orb_false_intro
           | |- _ && _ = false => apply andb_false_iff; right
           | |- (_ =? _) = false => apply Z.eqb_neq
           | |- (_ <=? _) = false => apply Z.leb_gt
           end; lia.
Qed.

Ltac not_hash H :=
  let E := fresh in
  destruct (hex_digit_plain _ _ H) as (_ & E & _); rewrite E; clear E.

Lemma skip_white_space_hex (c : ascii) (s : string) (v : Z) :
  hex_digit_val c = Some v -> skip_white_space (String c s) = String c s.
Proof.
  intros H. destruct (hex_digit_plain c v H) as (W & _).
  cbn [skip_white_space]. rewrite W. reflexivity.
Qed.

Lemma strip_sign_hex (c : ascii) (s : string) (v : Z) :
  hex_digit_val c = Some v -> strip_sign (String c s) = (false, String c s).
Proof.
  intros H. destruct (hex_digit_plain c v H) as (_ & _ & Hm & Hp & _).
  cbn [strip_sign]. rewrite Hm, Hp. reflexivity.
Qed.

Lemma strip_0x_hex (c0 c1 : ascii) (s : string) (v : Z) :
  hex_digit_val c1 = Some v ->
  strip_0x (String c0 (String c1 s)) = String c0 (String c1 s).
Proof.
  intros H. destruct (hex_digit_plain c1 v H) as (_ & _ & _ & _ & Hx & HX).
  cbn [strip_0x]. rewrite Hx, HX, andb_false_r. reflexivity.
Qed.

Lemma to_number_small (n : Z) : n < 2 ^ 53 -> to_number n = Finite n.
Proof.
  intros H. unfold to_number. apply Z.ltb_lt in H. rewrite H. reflexivity.
Qed.

(** [parseInt] of two radix-16 digits. *)
Lemma parseInt16_two (c1 c2 : ascii) (v1 v2 : Z) :
  hex_digit_val c1 = Some v1 -> hex_digit_val c2 = Some v2 ->
  parseInt16 (String c1 (String c2 EmptyString)) = Finite (16 * v1 + v2).
Proof.
  intros H1 H2. unfold parseInt16.
  rewrite (skip_white_space_hex _ _ _ H1), (strip_sign_hex _ _ _ H1),
    (strip_0x_hex _ _ _ _ H2).
  cbn [read_hex]. rewrite H1, H2. cbn [opt_or].
  pose proof (hex_digit_val_range _ _ H1).
  pose proof (hex_digit_val_range _ _ H2).
  replace (16 * (16 * 0 + v1) + v2) with (16 * v1 + v2) by lia.
  rewrite to_number_small; [reflexivity|].
  change (2 ^ 53) with 9007199254740992. lia.
Qed.

(** [parseInt] of six radix-16 digits. *)
Lemma parseInt16_six (c1 c2 c3 c4 c5 c6 : ascii) (v1 v2 v3 v4 v5 v6 : Z) :
  hex_digit_val c1 = Some v1 -> hex_digit_val c2 = Some v2 ->
  hex_digit_val c3 = Some v3 -> hex_digit_val c4 = Some v4 ->
  hex_digit_val c5 = Some v5 -> hex_digit_val c6 = Some v6 ->
  parseInt16 (six c1 c2 c3 c4 c5 c6)
  = Finite (hex6_value v1 v2 v3 v4 v5 v6).
Proof.
  intros H1 H2 H3 H4 H5 H6. unfold parseInt16, six.
  rewrite (skip_white_space_hex _ _ _ H1), (strip_sign_hex _ _ _ H1),
    (strip_0x_hex _ _ _ _ H2).
  cbn [read_hex]. rewrite H1, H2, H3, H4, H5, H6. cbn [opt_or].
  pose proof (hex_digit_val_range _ _ H1).
  pose proof (hex_digit_val_range _ _ H2).
  pose proof (hex_digit_val_range _ _ H3).
  pose proof (hex_digit_val_range _ _ H4).
  pose proof (hex_digit_val_range _ _ H5).
  pose proof (hex_digit_val_range _ _ H6).
  replace (16 * (16 * (16 * (16 * (16 * (16 * 0 + v1) + v2) + v3) + v4)
                 + v5) + v6)
    with (hex6_value v1 v2 v3 v4 v5 v6) by (unfold hex6_value; lia).
  rewrite to_number_small; [reflexivity|].
  change (2 ^ 53) with 9007199254740992. unfold hex6_value. lia.
Qed.

Lemma ToInt32_small (n : Z) : 0 <= n < 2 ^ 31 -> ToInt32 (Finite n) = n.
Proof.
  intros H. unfold ToInt32.
  change (2 ^ 32) with 4294967296. change (2 ^ 31) with 2147483648 in *.
  rewrite Z.mod_small by lia.
  destruct (2147483648 <=? n) eqn:E; [apply Z.leb_le in E; lia | reflexivity].
Qed.

(** The shifts and masks of [hexToRgb] on a 24-bit number. *)
Lemma split_channels (A B C : Z) :
  0 <= A < 256 -> 0 <= B < 256 -> 0 <= C < 256 ->
  let n := A * 65536 + B * 256 + C in
  band (sar n 16) 255 = A /\ band (sar n 8) 255 = B /\ band n 255 = C.
Proof.
  intros HA HB HC n. unfold band, sar.
  change 255 with (Z.ones 8).
  rewrite !Z.land_ones, !Z.shiftr_div_pow2 by lia.
  change (2 ^ 16) with 65536. change (2 ^ 8) with 256.
  subst n. repeat split.
  - replace ((A * 65536 + B * 256 + C) / 65536) with A;
      [apply Z.mod_small; lia|].
    apply Z.div_unique with (r := B * 256 + C); lia.
  - replace ((A * 65536 + B * 256 + C) / 256) with (A * 256 + B).
    + replace (A * 256 + B) with (B + A * 256) by lia.
      rewrite Z.mod_add by lia. apply Z.mod_small; lia.
    + apply Z.div_unique with (r := C); lia.
  - replace (A * 65536 + B * 256 + C) with (C + (A * 256 + B) * 256) by lia.
    rewrite Z.mod_add by lia. apply Z.mod_small; lia.
Qed.

Lemma remove_first_hash_six (c1 c2 c3 c4 c5 c6 : ascii) (v1 v2 v3 v4 v5 v6 : Z) :
  hex_digit_val c1 = Some v1 -> hex_digit_val c2 = Some v2 ->
  hex_digit_val c3 = Some v3 -> hex_digit_val c4 = Some v4 ->
  hex_digit_val c5 = Some v5 -> hex_digit_val c6 = Some v6 ->
  remove_first_hash (six c1 c2 c3 c4 c5 c6) = six c1 c2 c3 c4 c5 c6.
Proof.
  intros H1 H2 H3 H4 H5 H6. unfold six. cbn [remove_first_hash].
  not_hash H1. not_hash H2. not_hash H3. not_hash H4. not_hash H5.
  not_hash H6. reflexivity.
Qed.

(** [hexToRgb] of [applyGradient] on six radix-16 digits, with or without
    the ["#"]. *)
Lemma hexToRgb_six_digits (c1 c2 c3 c4 c5 c6 : ascii) (v1 v2 v3 v4 v5 v6 : Z) :
  hex_digit_val c1 = Some v1 -> hex_digit_val c2 = Some v2 ->
  hex_digit_val c3 = Some v3 -> hex_digit_val c4 = Some v4 ->
  hex_digit_val c5 = Some v5 -> hex_digit_val c6 = Some v6 ->
  hexToRgb (six c1 c2 c3 c4 c5 c6)
  = mkRGB (16 * v1 + v2) (16 * v3 + v4) (16 * v5 + v6)
  /\ hexToRgb (String "#" (six c1 c2 c3 c4 c5 c6))
     = hexToRgb (six c1 c2 c3 c4 c5 c6).
Proof.
  intros H1 H2 H3 H4 H5 H6.
  pose proof (remove_first_hash_six _ _ _ _ _ _ _ _ _ _ _ _
                H1 H2 H3 H4 H5 H6) as Hs.
  split.
  - unfold hexToRgb. rewrite Hs. unfold six. cbv beta iota zeta.
    fold (six c1 c2 c3 c4 c5 c6).
    rewrite (parseInt16_six _ _ _ _ _ _ _ _ _ _ _ _ H1 H2 H3 H4 H5 H6).
    pose proof (hex_digit_val_range _ _ H1).
    pose proof (hex_digit_val_range _ _ H2).
    pose proof (hex_digit_val_range _ _ H3).
    pose proof (hex_digit_val_range _ _ H4).
    pose proof (hex_digit_val_range _ _ H5).
    pose proof (hex_digit_val_range _ _ H6).
    rewrite ToInt32_small
      by (unfold hex6_value; change (2 ^ 31) with 2147483648; lia).
    unfold hex6_value.
    destruct (split_channels (16 * v1 + v2) (16 * v3 + v4) (16 * v5 + v6))
      as (-> & -> & ->); try lia.
    reflexivity.
  - unfold hexToRgb at 1.
    change (remove_first_hash (String "#" (six c1 c2 c3 c4 c5 c6)))
      with (six c1 c2 c3 c4 c5 c6).
    unfold hexToRgb. rewrite Hs. reflexivity.
Qed.

(** Three radix-16 digits stand for the six obtained by doubling each. *)
Lemma hexToRgb_three_digits (c1 c2 c3 : ascii) (v1 v2 v3 : Z) :
  hex_digit_val c1 = Some v1 -> hex_digit_val c2 = Some v2 ->
  hex_digit_val c3 = Some v3 ->
  hexToRgb (three c1 c2 c3) = hexToRgb (six c1 c1 c2 c2 c3 c3)
  /\ hexToRgb (String "#" (three c1 c2 c3))
     = hexToRgb (String "#" (six c1 c1 c2 c2 c3 c3))
  /\ hexToRgb (three c1 c2 c3) = mkRGB (17 * v1) (17 * v2) (17 * v3).
Proof.
  intros H1 H2 H3.
  destruct (hexToRgb_six_digits _ _ _ _ _ _ _ _ _ _ _ _ H1 H1 H2 H2 H3 H3)
    as [E6 _].
  pose proof (remove_first_hash_six _ _ _ _ _ _ _ _ _ _ _ _
                H1 H1 H2 H2 H3 H3) as Hs6.
  assert (E3 : hexToRgb (three c1 c2 c3) = hexToRgb (six c1 c1 c2 c2 c3 c3)).
  { unfold hexToRgb. rewrite Hs6. unfold three. cbn [remove_first_hash].
    not_hash H1. not_hash H2. not_hash H3. reflexivity. }
  split; [exact E3|]. split; [reflexivity|].
  rewrite E3, E6. f_equal; lia.
Qed.

Lemma band_255_channel (v : Z) : channel (band v 255).
Proof.
  unfold band, channel.
  change (Z.land v 255) with (Z.land v (Z.ones 8)).
  rewrite Z.land_ones by lia.
  pose proof (Z.mod_pos_bound v (2 ^ 8) eq_refl) as Hb.
  change (2 ^ 8) with 256 in *. lia.
Qed.

(** Whatever the string, [hexToRgb] of [applyGradient] returns channels. *)
Lemma hexToRgb_channels (s : string) :
  channel (hexToRgb s).(r) /\ channel (hexToRgb s).(g)
  /\ channel (hexToRgb s).(b).
Proof.
  unfold hexToRgb. cbn [r g b]. repeat split; apply band_255_channel.
Qed.



Local Open Scope Q_scope.





End HexColours.

(* ================================================================== *)
(** ** Gradient compiler: dispatch                                     *)
(* ================================================================== *)

Section Dispatch.
Context {M : MathLib}.

Lemma aspect_eq (o : GradientOptions) :
  Math_max (1 # 100) (opt_num_or o.(aspectRatio) 1) = effective_aspect o.
Proof.
  unfold effective_aspect, opt_num_or, num_or.
  destruct (aspectRatio o) as [a|]; [destruct (Qeq_bool a 0)|]; reflexivity.
Qed.

Lemma origin_eq (o : GradientOptions) (axis : Point -> Q) (d : Q) :
  axis (mkPoint 0 0) = 0 ->
  num_or (axis (opt_or o.(origin) (mkPoint 0 0))) d = origin_fraction o axis d.
Proof.
  intros H0. unfold origin_fraction, opt_or, num_or.
  destruct (origin o) as [p|]; [reflexivity|]. rewrite H0. reflexivity.
Qed.

(** [compileGradient], one branch at a time. *)
Lemma compileGradient_branches (o : GradientOptions) (w h : Q) :
  compileGradient o w h =
  match branch (family o) with
  | radial_branch =>
      mkGradient radial (radialCoords o w h (Math_max w h / 2))
        [startStop o; mixStop o (midOf o) (midOf o); endStop o]
  | diamond_branch =>
      mkGradient radial
        (radialCoords o w h ((Math_min w h / 2) * effective_aspect o))
        [startStop o; mixStop o (midOf o) (midOf o); endStop o]
  | reflected_branch =>
      mkGradient linear (linearCoords o w h)
        [startStop o; mixStop o (midOf o) (midOf o);
         mixStop o (1 - midOf o) (midOf o);
         mkStop 1 (toRgba (cStartOf o) (alphaOf o))]
  | multi_branch =>
      mkGradient linear (linearCoords o w h)
        [startStop o; mixStop o (35 # 100) (35 # 100);
         mixStop o (7 # 10) (7 # 10); endStop o]
  | linear_branch =>
      mkGradient linear (linearCoords o w h)
        [startStop o; mixStop o (midOf o) (midOf o); endStop o]
  end.
Proof.
  unfold compileGradient, branch, family, radialCoords, linearCoords.
  rewrite aspect_eq.
  rewrite !(origin_eq o x), !(origin_eq o y) by reflexivity.
  destruct (_ =? "radial")%string; [reflexivity|].
  destruct (_ =? "conic")%string; [reflexivity|].
  destruct (_ =? "diamond")%string; [reflexivity|].
  destruct (_ =? "reflected")%string; [reflexivity|].
  destruct (_ =? "multi-point")%string; [reflexivity|].
  destruct (_ =? "multi")%string; reflexivity.
Qed.

Lemma effective_aspect_lower_bound (o : GradientOptions) :
  1 # 100 <= effective_aspect o.
Proof.
  unfold effective_aspect.
  destruct (aspectRatio o) as [a|]; [destruct (Qeq_bool a 0)|];
    try (compute; discriminate).
  destruct (Math_max_cases (1 # 100) a) as [[H E]|[H E]]; rewrite E; lra.
Qed.


Lemma coords_of_linear_branches (o : GradientOptions) (w h : Q) :
  branch (family o) = linear_branch
  \/ branch (family o) = reflected_branch
  \/ branch (family o) = multi_branch ->
  (compileGradient o w h).(coords) = linearCoords o w h.
Proof.
  intros Hb. rewrite compileGradient_branches.
  destruct (branch (family o)); try reflexivity;
    destruct Hb as [Hb|[Hb|Hb]]; discriminate.
Qed.

(** [applyGradient] paints every active object with the gradient compiled
    for its own bounding rectangle; an empty selection is left alone. *)
Lemma applyGradient_paints (o : GradientOptions) (active : list FabricObject) :
  length (applyGradient o active) = length active
  /\ applyGradient o [] = []
  /\ Forall2
       (fun obj obj' =>
          let grad :=
            GradientPaint
              (compileGradient o obj.(boundsWidth) obj.(boundsHeight)) in
          obj'.(boundsWidth) = obj.(boundsWidth)
          /\ obj'.(boundsHeight) = obj.(boundsHeight)
          /\ obj'.(fill)
             = match opt_or o.(applyTo) fill_only with
               | stroke_only => obj.(fill)
               | _ => grad
               end
          /\ obj'.(stroke)
             = match opt_or o.(applyTo) fill_only with
               | fill_only => obj.(stroke)
               | _ => grad
               end)
       active (applyGradient o active).
Proof.
  unfold applyGradient. split; [apply length_map|]. split; [reflexivity|].
  induction active as [|obj rest IH]; cbn [map]; constructor; [|exact IH].
  destruct (opt_or (applyTo o) fill_only); repeat split.
Qed.


(** C4. Compiling with [reverse = true] gives the gradient that the
    options with [c1] and [c2] interchanged and [reverse = false] give:
    the first stop carries [c2], the last stop carries [c1] (the
    reflected family ends on its first colour, so on [c2] as well), and
    the stop at [mid] carries [mixColor c2 c1 mid], mixed anew from the
    swapped pair: between blue and red at a quarter it is
    [rgba(64, 0, 191)], where red to blue gives [rgba(191, 0, 64)]. *)
Theorem reverse_is_colour_swap (o : GradientOptions) (w h : Q) :
  let reversed := compileGradient (with_reverse (Some true) o) w h in
  let al := alphaOf o in
  reversed
  = compileGradient (with_reverse (Some false) (swap_colours o)) w h
  /\ hd_error reversed.(colorStops) = Some (mkStop 0 (toRgba o.(c2) al))
  /\ (branch (family o) <> reflected_branch ->
      last reversed.(colorStops) (mkStop 0 (toRgba o.(c2) al))
      = mkStop 1 (toRgba o.(c1) al))
  /\ (branch (family o) = reflected_branch ->
      last reversed.(colorStops) (mkStop 0 (toRgba o.(c2) al))
      = mkStop 1 (toRgba o.(c2) al))
  /\ (branch (family o) <> multi_branch ->
      nth_error reversed.(colorStops) 1
      = Some (mkStop (midOf o)
                (toRgba (mixColor o.(c2) o.(c1) (midOf o)) al))).
Proof.
  cbv zeta. rewrite !compileGradient_branches.
  change (family (with_reverse (Some true) o)) with (family o).
  change (family (with_reverse (Some false) (swap_colours o)))
    with (family o).
  split; [destruct (branch (family o)); reflexivity|].
  destruct (branch (family o)); repeat split;
    try reflexivity; intros; congruence.
Qed.

(** C10. The aspect factor that enters the geometry is
    [effective_aspect]: [max(0.01, aspectRatio)] for a supplied non-zero
    [aspectRatio] and [1] otherwise. It is at least [0.01]; it scales the
    outer radius of the diamond family and the horizontal extent of the
    linear families; so a box of positive size gets a positive diamond
    radius, and the horizontal extent keeps the sign of
    [cos(rad) * width]. *)
Theorem aspect_is_sanitised (o : GradientOptions) (w h : Q) :
  (forall a, o.(aspectRatio) = Some a -> ~ a == 0 ->
     effective_aspect o = Math_max (1 # 100) a)
  /\ (o.(aspectRatio) = None -> effective_aspect o = 1)
  /\ (forall a, o.(aspectRatio) = Some a -> a == 0 ->
        effective_aspect o = 1)
  /\ 0 < effective_aspect o
  /\ (branch (family o) = diamond_branch ->
      exists cx cy,
        (compileGradient o w h).(coords)
        = RadialCoords cx cy 0 cx cy
            ((Math_min w h / 2) * effective_aspect o)
        /\ (0 < w -> 0 < h -> 0 < (Math_min w h / 2) * effective_aspect o))
  /\ (branch (family o) = linear_branch
      \/ branch (family o) = reflected_branch
      \/ branch (family o) = multi_branch ->
      exists x1 y1 x2 y2,
        (compileGradient o w h).(coords) = LinearCoords x1 y1 x2 y2
        /\ x2 = x1 + Math_cos (radOf o) * w * effective_aspect o
        /\ y2 = y1 + Math_sin (radOf o) * h
        /\ 0 <= (x2 - x1) * (Math_cos (radOf o) * w)).
Proof.
  pose proof (effective_aspect_lower_bound o) as Hlow.
  repeat split.
  - intros a Ha Hnz. unfold effective_aspect. rewrite Ha.
    destruct (Qeq_bool a 0) eqn:E; [|reflexivity].
    apply Qeq_bool_iff in E. contradiction.
  - intros Ha. unfold effective_aspect. rewrite Ha. reflexivity.
  - intros a Ha Hz. unfold effective_aspect. rewrite Ha.
    apply Qeq_bool_iff in Hz. rewrite Hz. reflexivity.
  - lra.
  - intros Hb. rewrite compileGradient_branches, Hb. cbn [coords].
    unfold radialCoords. do 2 eexists. split; [reflexivity|].
    intros Hw Hh.
    assert (0 < Math_min w h)
      by (destruct (Math_min_cases w h) as [[_ E]|[_ E]]; rewrite E; lra).
    apply Qmult_lt_0_compat; [|lra].
    apply Qlt_shift_div_l; lra.
  - intros Hb. rewrite (coords_of_linear_branches o w h Hb).
    unfold linearCoords. do 4 eexists.
    split; [reflexivity|]. split; [reflexivity|]. split; [reflexivity|].
    set (d := Math_cos (radOf o) * w).
    set (x1 := w * origin_fraction o x 0).
    assert (E : (x1 + d * effective_aspect o - x1) * d
                == (d * d) * effective_aspect o) by ring.
    rewrite E. apply Qmult_le_0_compat; [apply Qsquare_nonneg | lra].
Qed.

(** Comparisons as booleans, and division by a constant. *)
Lemma midOf_unfold (o : GradientOptions) :
  midOf o = opt_or o.(mid) 50 * (1 # 100).
Proof. reflexivity. Qed.

Ltac qle_bool :=
  repeat match goal with
    | |- _ && _ = true => apply andb_true_intro; split
    | |- Qle_bool _ _ = true => apply Qle_bool_iff
    | |- true = true => reflexivity
    end.

(** C1, amended. The second stop of every family but multi-point sits at
    [mid / 100], unclamped. With [mid] inside [0, 100] every offset of the
    compiled gradient lies in [0, 1]; the stop list is then non-decreasing
    for every family but the reflected one, and for the reflected one as
    soon as [mid <= 50]. The multi-point stops are ordered and inside
    [0, 1] whatever [mid] is. *)
Theorem stops_ordered_when_mid_in_range (o : GradientOptions) (w h : Q) :
  let g := compileGradient o w h in
  let midPct := opt_or o.(mid) 50 in
  (branch (family o) <> multi_branch ->
     nth_error (offsets g) 1 = Some (midPct / 100))
  /\ (branch (family o) = multi_branch ->
      in_unit_interval (offsets g) = true
      /\ nondecreasing (offsets g) = true)
  /\ (0 <= midPct <= 100 ->
      in_unit_interval (offsets g) = true
      /\ (branch (family o) <> reflected_branch ->
          nondecreasing (offsets g) = true)
      /\ (midPct <= 50 -> nondecreasing (offsets g) = true)).
Proof.
  cbv zeta. rewrite compileGradient_branches. unfold offsets.
  split; [|split].
  - destruct (branch (family o)); try reflexivity. intros Hb. congruence.
  - intros Hb. rewrite Hb. split; reflexivity.
  - intros [Hlo Hhi].
    destruct (branch (family o)) eqn:Hb;
      cbn [colorStops map offset startStop endStop mixStop
           in_unit_interval nondecreasing forallb];
      rewrite ?midOf_unfold;
      (split; [| split]); intros; try congruence;
      qle_bool; try lra; try (compute; discriminate).
Qed.

Lemma radOf_zero_angle (o : GradientOptions) :
  o.(angle) = Some 0 \/ o.(angle) = None -> radOf o == 0.
Proof.
  intros [E|E]; unfold radOf; rewrite E; cbn [opt_or]; unfold Qdiv; ring.
Qed.

(** C2. The worked example: linear family, [mid = 50], [angle = 0], no
    reverse, red to blue, full opacity, a 100 by 50 box. The gradient is
    linear, starts at the origin [(0, 0)], ends at
    [start + (cos(rad) * 100 * 1, sin(rad) * 50)], which is [(100, 0)]
    since [rad] is [0], and has exactly the three stops [0 -> rgba(255,0,0,1)],
    [0.5 -> rgba(128,0,128,1)] and [1 -> rgba(0,0,255,1)]. *)
Theorem linear_example_compiles :
  exact_at_zero M ->
  let g := compileGradient example_options 100 50 in
  g.(gradType) = linear
  /\ (exists x1 y1,
        g.(coords)
        = LinearCoords x1 y1
            (x1 + Math_cos (radOf example_options) * 100 * 1)
            (y1 + Math_sin (radOf example_options) * 50)
        /\ x1 == 0 /\ y1 == 0 /\ radOf example_options == 0)
  /\ coords_equiv g.(coords) (LinearCoords 0 0 100 0)
  /\ Forall2 stop_equiv g.(colorStops)
       [ mkStop 0 (mkRgba 255 0 0 1);
         mkStop (1 # 2) (mkRgba 128 0 128 1);
         mkStop 1 (mkRgba 0 0 255 1) ].
Proof.
  intros [Hcos Hsin]. cbv zeta. rewrite compileGradient_branches.
  change (branch (family example_options)) with linear_branch.
  cbn [gradType coords colorStops].
  assert (Hrad : radOf example_options == 0)
    by (apply radOf_zero_angle; left; reflexivity).
  split; [reflexivity|]. split; [|split].
  - do 2 eexists. split; [reflexivity|].
    split; [reflexivity|]. split; [reflexivity|]. exact Hrad.
  - unfold linearCoords, coords_equiv.
    change (effective_aspect example_options) with 1.
    change (origin_fraction example_options x 0) with 0.
    change (origin_fraction example_options y 0) with 0.
    rewrite (Hcos _ Hrad), (Hsin _ Hrad). repeat split; reflexivity.
  - repeat constructor; vm_compute; reflexivity.
Qed.


End Dispatch.

(* ================================================================== *)
(** ** Pointer handlers: crop and text sessions                        *)
(* ================================================================== *)

Section Pointer.





Lemma text_release (mode : option TextMode) (s p : Point) (st : Stage) :
  st.(tool) = "text"%string ->
  let dx := Math_abs (p.(x) - s.(x)) in
  let dy := Math_abs (p.(y) - s.(y)) in
  let area_calls :=
    [AddTextbox (Math_min s.(x) p.(x)) (Math_min s.(y) p.(y))
                (Math_max 40 dx) (Math_max 24 dy)] in
  let point_calls := [AddIText s.(x) s.(y)] in
  snd (press_and_release mode s p st)
  = match mode with
    | Some area => area_calls
    | Some point => point_calls
    | None => if gtb dx 4 || gtb dy 4 then area_calls else point_calls
    end
  /\ (fst (press_and_release mode s p st)).(textDrag) = None.
Proof.
  destruct st as [tl tm cf cr cs td]. cbn [tool]. intros ->.
  unfold press_and_release, with_textMode.
  cbn -[gtb Math_abs Math_max Math_min Qminus].
  destruct mode as [[|]|];
    destruct (gtb (Math_abs (x p - x s)) 4 || gtb (Math_abs (y p - y s)) 4);
    split; reflexivity.
Qed.

(** C7. On pointer up with the text tool the outcome depends on
    [dragged = dx > 4 || dy > 4] when no mode is forced: a displacement of
    [(2, 1)] creates a point text at the start, a displacement of [(10, 0)]
    creates an area box of width [max(40, 10) = 40] and height
    [max(24, 0) = 24] at the start, which is the top-left corner of the
    box the two points span. The forced mode [area] always creates the
    area box, the forced mode [point] always creates the point text. The
    session is discarded in every case. *)
Theorem text_placement (st : Stage) (s p : Point) :
  st.(tool) = "text"%string ->
  let dx := Math_abs (p.(x) - s.(x)) in
  let dy := Math_abs (p.(y) - s.(y)) in
  let area_calls :=
    [AddTextbox (Math_min s.(x) p.(x)) (Math_min s.(y) p.(y))
                (Math_max 40 dx) (Math_max 24 dy)] in
  let point_calls := [AddIText s.(x) s.(y)] in
  snd (press_and_release None s p st)
  = (if gtb dx 4 || gtb dy 4 then area_calls else point_calls)
  /\ snd (press_and_release None s (mkPoint (s.(x) + 2) (s.(y) + 1)) st)
     = point_calls
  /\ snd (press_and_release None s (mkPoint (s.(x) + 10) (s.(y) + 0)) st)
     = [AddTextbox s.(x) s.(y) 40 24]
  /\ snd (press_and_release (Some area) s p st) = area_calls
  /\ snd (press_and_release (Some point) s p st) = point_calls
  /\ (forall mode, (fst (press_and_release mode s p st)).(textDrag) = None).
Proof.
  intros Htool. cbv zeta.
  split; [apply (text_release None s p st Htool)|].
  split; [|split; [|split; [|split]]].
  - rewrite (proj1 (text_release None s _ st Htool)). cbn [x y].
    assert (Hx : Math_abs (x s + 2 - x s) <= 4)
      by (unfold Math_abs; apply Qabs_case; intros; lra).
    assert (Hy : Math_abs (y s + 1 - y s) <= 4)
      by (unfold Math_abs; apply Qabs_case; intros; lra).
    apply gtb_false_iff in Hx, Hy. rewrite Hx, Hy. reflexivity.
  - rewrite (proj1 (text_release None s _ st Htool)). cbn [x y].
    assert (Hx : 4 < Math_abs (x s + 10 - x s))
      by (unfold Math_abs; apply Qabs_case; intros; lra).
    assert (Hw : Math_abs (x s + 10 - x s) < 40)
      by (unfold Math_abs; apply Qabs_case; intros; lra).
    assert (Hh : Math_abs (y s + 0 - y s) < 24)
      by (unfold Math_abs; apply Qabs_case; intros; lra).
    apply gtb_true_iff in Hx. rewrite Hx. cbn [orb].
    unfold Math_max, Math_min.
    rewrite (Qle_bool_false _ _ Hw), (Qle_bool_false _ _ Hh).
    rewrite !Qle_bool_true by lra. reflexivity.
  - apply (text_release (Some area) s p st Htool).
  - apply (text_release (Some point) s p st Htool).
  - intros mode. apply (text_release mode s p st Htool).
Qed.

End Pointer.

(* ================================================================== *)
(** ** The two [hexToRgb]                                              *)
(* ================================================================== *)

Section HexToRgb.
Local Open Scope Z_scope.

Lemma is_hex_digit_val (c : ascii) (v : Z) :
  hex_digit_val c = Some v -> is_hex_digit c = true.
Proof. unfold is_hex_digit. intros ->. reflexivity. Qed.

Lemma is_hex_digit_inv (c : ascii) :
  is_hex_digit c = true -> exists v, hex_digit_val c = Some v.
Proof.
  unfold is_hex_digit.
  destruct (hex_digit_val c) as [v|]; [eauto | discriminate].
Qed.

Lemma code_hash (c : ascii) : (code c =? 35) = true -> c = "#"%char.
Proof.
  intros H. apply Z.eqb_eq in H. unfold code in H.
  rewrite <- (ascii_N_embedding c).
  replace (N_of_ascii c) with 35%N by lia. reflexivity.
Qed.

Lemma sidebar_two_digits (c1 c2 : ascii) (v1 v2 : Z) :
  hex_digit_val c1 = Some v1 -> hex_digit_val c2 = Some v2 ->
  integer_of (parseInt16 (String c1 (String c2 EmptyString)))
  = 16 * v1 + v2.
Proof.
  intros H1 H2. rewrite (parseInt16_two _ _ _ _ H1 H2). reflexivity.
Qed.

(** The pattern of the sidebar matches six radix-16 digits, with or
    without the ["#"], and splits them in three groups. *)
Lemma match_hex6_six (c1 c2 c3 c4 c5 c6 : ascii) :
  forallb is_hex_digit [c1; c2; c3; c4; c5; c6] = true ->
  let groups :=
    Some (String c1 (String c2 EmptyString),
          String c3 (String c4 EmptyString),
          String c5 (String c6 EmptyString)) in
  LeftSidebar.match_hex6 (six c1 c2 c3 c4 c5 c6) = groups
  /\ LeftSidebar.match_hex6 (String "#" (six c1 c2 c3 c4 c5 c6)) = groups.
Proof.
  intros Hall.
  assert (Hc : (code c1 =? 35) = false).
  { pose proof Hall as H1. cbn [forallb] in H1.
    apply andb_true_iff in H1. destruct H1 as [H1 _].
    apply is_hex_digit_inv in H1. destruct H1 as [v1 H1].
    apply (hex_digit_plain _ _ H1). }
  unfold LeftSidebar.match_hex6, six.
  change (code "#" =? 35) with true. cbv iota. rewrite Hc, Hall.
  split; reflexivity.
Qed.

Lemma sidebar_hexToRgb_six
    (c1 c2 c3 c4 c5 c6 : ascii) (v1 v2 v3 v4 v5 v6 : Z) :
  hex_digit_val c1 = Some v1 -> hex_digit_val c2 = Some v2 ->
  hex_digit_val c3 = Some v3 -> hex_digit_val c4 = Some v4 ->
  hex_digit_val c5 = Some v5 -> hex_digit_val c6 = Some v6 ->
  let rgb := mkRGB (16 * v1 + v2) (16 * v3 + v4) (16 * v5 + v6) in
  LeftSidebar.hexToRgb (six c1 c2 c3 c4 c5 c6) = Some rgb
  /\ LeftSidebar.hexToRgb (String "#" (six c1 c2 c3 c4 c5 c6)) = Some rgb.
Proof.
  intros H1 H2 H3 H4 H5 H6 rgb.
  assert (Hall : forallb is_hex_digit [c1; c2; c3; c4; c5; c6] = true).
  { cbn [forallb].
    rewrite (is_hex_digit_val _ _ H1), (is_hex_digit_val _ _ H2),
      (is_hex_digit_val _ _ H3), (is_hex_digit_val _ _ H4),
      (is_hex_digit_val _ _ H5), (is_hex_digit_val _ _ H6). reflexivity. }
  destruct (match_hex6_six _ _ _ _ _ _ Hall) as [E Eh].
  unfold LeftSidebar.hexToRgb. rewrite E, Eh.
  rewrite (sidebar_two_digits _ _ _ _ H1 H2),
    (sidebar_two_digits _ _ _ _ H3 H4), (sidebar_two_digits _ _ _ _ H5 H6).
  split; reflexivity.
Qed.

(** Three characters never match, with or without the ["#"]. *)
Lemma sidebar_hexToRgb_three (c1 c2 c3 : ascii) :
  LeftSidebar.hexToRgb (three c1 c2 c3) = None
  /\ LeftSidebar.hexToRgb (String "#" (three c1 c2 c3)) = None.
Proof.
  unfold LeftSidebar.hexToRgb, LeftSidebar.match_hex6, three.
  change (code "#" =? 35) with true. cbv iota.
  split; [|reflexivity].
  destruct (code c1 =? 35); reflexivity.
Qed.

(** What the sidebar accepts is six radix-16 digits after an optional
    ["#"]. *)
Lemma sidebar_hexToRgb_accepts (s : string) (rgb : RGB) :
  LeftSidebar.hexToRgb s = Some rgb ->
  exists c1 c2 c3 c4 c5 c6,
    (s = six c1 c2 c3 c4 c5 c6 \/ s = String "#" (six c1 c2 c3 c4 c5 c6))
    /\ forallb is_hex_digit [c1; c2; c3; c4; c5; c6] = true.
Proof.
  unfold LeftSidebar.hexToRgb, LeftSidebar.match_hex6.
  set (body := match s with
               | String c0 rest => if code c0 =? 35 then rest else s
               | EmptyString => s
               end).
  assert (Hs : s = body \/ s = String "#" body).
  { subst body. destruct s as [|c0 rest]; [left; reflexivity|].
    destruct (code c0 =? 35) eqn:E; [|left; reflexivity].
    right. rewrite (code_hash _ E). reflexivity. }
  clearbody body.
  destruct body as [|c1 [|c2 [|c3 [|c4 [|c5 [|c6 [|c7 rest]]]]]]];
    try discriminate.
  destruct (forallb is_hex_digit [c1; c2; c3; c4; c5; c6]) eqn:E;
    [|discriminate].
  intros _. exists c1, c2, c3, c4, c5, c6. split; [exact Hs | exact E].
Qed.

(** C9, amended. The [hexToRgb] of the sidebar accepts exactly an optional
    ["#"] followed by six radix-16 digits of either case, and returns
    [null] on every other string, the three-digit forms included. The
    [hexToRgb] local to [applyGradient] accepts six or three radix-16
    digits with or without the ["#"]; three digits give the colour of the
    six digits obtained by doubling each one; on six digits both functions
    agree. That second function has no sentinel: whatever the string, it
    returns three channels inside [0, 255]. *)
Theorem hexToRgb_forms (c1 c2 c3 c4 c5 c6 : ascii) :
  forallb is_hex_digit [c1; c2; c3; c4; c5; c6] = true ->
  (exists rgb,
      LeftSidebar.hexToRgb (six c1 c2 c3 c4 c5 c6) = Some rgb
      /\ LeftSidebar.hexToRgb (String "#" (six c1 c2 c3 c4 c5 c6)) = Some rgb
      /\ CanvasStage.hexToRgb (six c1 c2 c3 c4 c5 c6) = rgb
      /\ CanvasStage.hexToRgb (String "#" (six c1 c2 c3 c4 c5 c6)) = rgb)
  /\ CanvasStage.hexToRgb (three c1 c2 c3)
     = CanvasStage.hexToRgb (six c1 c1 c2 c2 c3 c3)
  /\ CanvasStage.hexToRgb (String "#" (three c1 c2 c3))
     = CanvasStage.hexToRgb (String "#" (six c1 c1 c2 c2 c3 c3))
  /\ LeftSidebar.hexToRgb (three c1 c2 c3) = None
  /\ LeftSidebar.hexToRgb (String "#" (three c1 c2 c3)) = None
  /\ (forall s rgb,
        LeftSidebar.hexToRgb s = Some rgb ->
        exists d1 d2 d3 d4 d5 d6,
          (s = six d1 d2 d3 d4 d5 d6 \/ s = String "#" (six d1 d2 d3 d4 d5 d6))
          /\ forallb is_hex_digit [d1; d2; d3; d4; d5; d6] = true)
  /\ (forall s,
        channel (CanvasStage.hexToRgb s).(r)
        /\ channel (CanvasStage.hexToRgb s).(g)
        /\ channel (CanvasStage.hexToRgb s).(b)).
Proof.
  intros Hhex. cbn [forallb] in Hhex.
  repeat (apply andb_true_iff in Hhex;
          let H := fresh "Hd" in destruct Hhex as [H Hhex]).
  apply is_hex_digit_inv in Hd, Hd0, Hd1, Hd2, Hd3, Hd4.
  destruct Hd as [v1 H1], Hd0 as [v2 H2], Hd1 as [v3 H3], Hd2 as [v4 H4],
    Hd3 as [v5 H5], Hd4 as [v6 H6].
  split; [|split; [|split; [|split; [|split; [|split]]]]].
  - destruct (sidebar_hexToRgb_six _ _ _ _ _ _ _ _ _ _ _ _ H1 H2 H3 H4 H5 H6)
      as [Es Esh].
    destruct (hexToRgb_six_digits _ _ _ _ _ _ _ _ _ _ _ _ H1 H2 H3 H4 H5 H6)
      as [Ec Ech].
    eexists. split; [exact Es|]. split; [exact Esh|].
    split; [exact Ec|]. rewrite <- Ec. exact Ech.
  - apply (hexToRgb_three_digits _ _ _ _ _ _ H1 H2 H3).
  - apply (hexToRgb_three_digits _ _ _ _ _ _ H1 H2 H3).
  - apply sidebar_hexToRgb_three.
  - apply sidebar_hexToRgb_three.
  - apply sidebar_hexToRgb_accepts.
  - apply hexToRgb_channels.
Qed.

End HexToRgb.

(* ================================================================== *)
(** ** CMYK and back                                                   *)
(* ================================================================== *)

Section Cmyk.

















End Cmyk.

(* ================================================================== *)
(** ** Worked instances                                                *)
(* ================================================================== *)


(** The worked example reversed ends on red. *)
Lemma reverse_is_colour_swap_witness :
  last (compileGradient (H := sample_math)
          (with_reverse (Some true) example_options) 100 50).(colorStops)
       (mkStop 0 (toRgba "#0000ff" (alphaOf example_options)))
  = mkStop 1 (toRgba "#ff0000" (alphaOf example_options)).
Proof.
  apply (reverse_is_colour_swap (M := sample_math) example_options 100 50).
  discriminate.
Defined.

(** An aspect ratio of [-2] is replaced by [0.01]. *)
Lemma aspect_is_sanitised_witness :
  effective_aspect squashed_diamond = Math_max (1 # 100) (-2)
  /\ 0 < (Math_min 100 50 / 2) * effective_aspect squashed_diamond.
Proof.
  destruct (aspect_is_sanitised (M := sample_math) squashed_diamond 100 50)
    as (Hval & _ & _ & _ & Hdiamond & _).
  split.
  - apply (Hval (-2)); [reflexivity | discriminate].
  - destruct Hdiamond as (cx & cy & _ & Hpos); [reflexivity|].
    apply Hpos; reflexivity.
Defined.

(** C1 fails as stated: [mid = 150] puts a stop at offset [1.5], after
    which the list decreases to [1]; and the reflected family with
    [mid = 75] has the offsets [0, 0.75, 0.25, 1]. *)
Lemma stops_unordered_counterexample :
  let g := compileGradient (H := sample_math) overshoot_options 100 50 in
  let g' := compileGradient (H := sample_math) late_reflected_options 100 50 in
  offsets g = [0; 150 / 100; 1]
  /\ in_unit_interval (offsets g) = false
  /\ nondecreasing (offsets g) = false
  /\ offsets g' = [0; 75 / 100; 1 - 75 / 100; 1]
  /\ nondecreasing (offsets g') = false.
Proof. repeat split. Qed.

(** The stops of the worked example are ordered inside [0, 1]. *)
Lemma stops_ordered_witness :
  in_unit_interval
    (offsets (compileGradient (H := sample_math) example_options 100 50))
  = true
  /\ nondecreasing
       (offsets (compileGradient (H := sample_math) example_options 100 50))
     = true.
Proof.
  destruct (stops_ordered_when_mid_in_range (M := sample_math)
              example_options 100 50) as (_ & _ & Hmid).
  destruct Hmid as (Hunit & _ & Hord).
  - split; discriminate.
  - split; [exact Hunit | apply Hord; discriminate].
Defined.

Lemma sample_math_exact_at_zero : exact_at_zero sample_math.
Proof.
  split; intros a Ha; cbn [Math_cos Math_sin sample_math]; rewrite Ha;
    reflexivity.
Qed.

(** The stops of the worked example. *)
Lemma linear_example_witness :
  Forall2 stop_equiv
    (compileGradient (H := sample_math) example_options 100 50).(colorStops)
    [ mkStop 0 (mkRgba 255 0 0 1);
      mkStop (1 # 2) (mkRgba 128 0 128 1);
      mkStop 1 (mkRgba 0 0 255 1) ].
Proof.
  exact (proj2 (proj2 (proj2
    (linear_example_compiles (M := sample_math) sample_math_exact_at_zero)))).
Defined.




(** A drag of ten units to the right with the text tool. *)
Lemma text_placement_witness :
  snd (press_and_release None (mkPoint 100 100) (mkPoint 110 100)
         (mkStage "text" None false None (mkPoint 0 0) None))
  = [AddTextbox 100 100 40 24].
Proof.
  destruct (text_placement
              (mkStage "text" None false None (mkPoint 0 0) None)
              (mkPoint 100 100) (mkPoint 110 100)) as (E & _).
  - reflexivity.
  - rewrite E. reflexivity.
Defined.

(** C9 fails as stated for either function: the sidebar's rejects the
    three-digit form, and the one local to [applyGradient] turns strings
    that are no colour into a colour. *)
Lemma hexToRgb_counterexample :
  LeftSidebar.hexToRgb "#abc" = None
  /\ LeftSidebar.hexToRgb "abc" = None
  /\ LeftSidebar.hexToRgb "#aabbcc" = Some (mkRGB 170 187 204)
  /\ CanvasStage.hexToRgb "zz" = mkRGB 0 0 0
  /\ CanvasStage.hexToRgb "#000000" = mkRGB 0 0 0
  /\ CanvasStage.hexToRgb "12345" = mkRGB 1 35 69.
Proof. repeat split. Qed.

(** The short form ["#abc"] in both functions. *)
Lemma hexToRgb_forms_witness :
  CanvasStage.hexToRgb "#abc" = CanvasStage.hexToRgb "#aabbcc"
  /\ LeftSidebar.hexToRgb "#abc" = None.
Proof.
  destruct (hexToRgb_forms "a" "b" "c" "D" "E" "F")
    as (_ & _ & E3 & _ & N3 & _).
  - reflexivity.
  - split; [exact E3 | exact N3].
Defined.


